(** * PsyNeuLink: utility functions and projection wiring

    A shallow embedding of [Functions/Utility.py],
    [Functions/Projections/Projection.py] and
    [Functions/Projections/Mapping.py].

    Numbers.  The entries of a numpy array are 64-bit integers, whose
    arithmetic wraps around, or binary64 floating-point numbers, whose
    arithmetic rounds to nearest even and has infinities and NaN
    ([Scalar], on the Standard Library's [SpecFloat]).  The numbers that
    Contradiction compares are exact rationals ([Qc]).

    Exceptions.  A Python call either returns a value or raises; a raised
    exception is an [exn] and a call is a [result].  Code that mutates shared
    objects (the projection lists of a state) runs in a state-and-exception
    monad in which the store survives a raise, as it does in Python. *)

From Stdlib Require Import ZArith QArith Qcanon List Bool Lia SpecFloat.
From stdpp Require Import base gmap list strings.

Import ListNotations.
Local Open Scope Qc_scope.

(* ================================================================== *)
(** ** Numbers as numpy computes with them *)
(* ================================================================== *)

Module Scalar.

(** binary64: 53 bits of mantissa, infinities at the exponent 1024. *)
Definition prec : Z := 53%Z.
Definition emax : Z := 1024%Z.

(** The int64 that an integer is reduced to when a result does not fit. *)
Definition wrap (z : Z) : Z := ((z + 2 ^ 63) mod 2 ^ 64 - 2 ^ 63)%Z.

(** An entry of an array, a numpy scalar or a Python number: an integer
    ([int64], Python's [int]) or a float ([float64], Python's [float]).  A
    Python [int] is taken within the range of [int64], where numpy computes
    with it as with an [int64]; what numpy does with a larger one depends on
    its version and is not modelled. *)
Inductive scalar : Type :=
| I64 (z : Z)
| F64 (f : spec_float).

(** The entries of one array have one type, all integers or all floats:
    numpy turns a list that mixes them into an array of floats.  [box] makes
    a scalar of an entry of the type [d], so that the arrays of the program
    are the lists [map box v]. *)
Inductive dtype : Type :=
| int64
| float64.

Definition entry (d : dtype) : Type :=
  match d with
  | int64 => Z
  | float64 => spec_float
  end.


(** The float nearest to an integer, ties to even. *)
Definition of_Z (z : Z) : spec_float := binary_normalize prec emax z 0 false.

(** The float [m * 2^e]. *)
Definition float_of (m e : Z) : scalar :=
  F64 (binary_normalize prec emax m e false).

Definition fzero : scalar := F64 (S754_zero false).
Definition fone : scalar := float_of 1 0.

(** Type promotion: an operation on two integers is an integer operation;
    as soon as one operand is a float, the other is converted. *)
Definition to_float (x : scalar) : spec_float :=
  match x with
  | I64 z => of_Z z
  | F64 f => f
  end.

(** [x + y] and [x * y] of numpy scalars and array entries. *)
Definition add (x y : scalar) : scalar :=
  match x, y with
  | I64 a, I64 b => I64 (wrap (a + b))
  | _, _ => F64 (SFadd prec emax (to_float x) (to_float y))
  end.

Definition mul (x y : scalar) : scalar :=
  match x, y with
  | I64 a, I64 b => I64 (wrap (a * b))
  | _, _ => F64 (SFmul prec emax (to_float x) (to_float y))
  end.

(** [x - y] of two Python numbers: integers are subtracted exactly. *)
Definition py_sub (x y : scalar) : scalar :=
  match x, y with
  | I64 a, I64 b => I64 (a - b)
  | _, _ => F64 (SFsub prec emax (to_float x) (to_float y))
  end.

(** An [int64] within its range. *)
Definition in_int64 (z : Z) : Prop := (- 2 ^ 63 <= z < 2 ^ 63)%Z.




End Scalar.
Import Scalar(scalar(..)).

(* ================================================================== *)
(** ** Python values and exceptions *)
(* ================================================================== *)

Module Py.

(** The exception classes that the modelled code raises, directly or
    through the interpreter and numpy. *)
Inductive exn : Type :=
| UtilityError
| ProjectionError
| TypeError
| ValueError
| AttributeError
| IndexError
| ReferenceError.


Inductive result (A : Type) : Type :=
| Ok (a : A)
| Raise (e : exn).
Arguments Ok {A} a.
Arguments Raise {A} e.

Definition bind {A B} (r : result A) (k : A -> result B) : result B :=
  match r with
  | Ok a => k a
  | Raise e => Raise e
  end.

Definition is_ok {A} (r : result A) : bool :=
  match r with Ok _ => true | Raise _ => false end.

(** A fraction [n/d] and an integer as exact rationals. *)
Definition frac (n : Z) (d : positive) : Qc := Q2Qc (n # d).
Definition int (n : Z) : Qc := frac n 1.

(** A numpy array of numbers of dimension 0, 1 or 2.  A bare Python number
    and a 0-d array are both [Num]; a 1-d array is [Arr1], the list of its
    entries; a 2-d array is the list of its rows.  The entries of an array
    have one type. *)
Inductive ndarray : Type :=
| Num (x : scalar)
| Arr1 (v : list scalar)
| Arr2 (m : list (list scalar)).

Definition ndim (a : ndarray) : nat :=
  match a with Num _ => 0 | Arr1 _ => 1 | Arr2 _ => 2 end.

(** [len(a)]: the size of the outer dimension; a number has none. *)
Definition len (a : ndarray) : result nat :=
  match a with
  | Num _ => Raise TypeError
  | Arr1 v => Ok (length v)
  | Arr2 m => Ok (length m)
  end.

(** [a[i]] on a 1-d array. *)
Definition getitem (v : list scalar) (i : nat) : result scalar :=
  match v !! i with
  | Some x => Ok x
  | None => Raise IndexError
  end.

(** [a[0]] on an array. *)
Definition item0 (a : ndarray) : result ndarray :=
  match a with
  | Arr1 (x :: _) => Ok (Num x)
  | Arr2 (row :: _) => Ok (Arr1 row)
  | _ => Raise IndexError
  end.

(** [isinstance(a, numbers.Number)] *)
Definition is_number (a : ndarray) : bool :=
  match a with Num _ => true | _ => false end.

(** A parameter that is meant to hold a member of the enumeration [E]:
    either a member, or some other Python object, of which only the truth
    value matters.  Members of a plain [Enum] are all true; an object
    that is not a member compares unequal to every member. *)
Inductive enum_param (E : Type) : Type :=
| Member (e : E)
| Other (truthy : bool).
Arguments Member {E} e.
Arguments Other {E} truthy.

Definition enum_truthy {E} (p : enum_param E) : bool :=
  match p with Member _ => true | Other t => t end.

Fixpoint mapM {A B} (f : A -> result B) (l : list A) : result (list B) :=
  match l with
  | [] => Ok []
  | x :: l' =>
      match f x with
      | Ok y => match mapM f l' with
                | Ok ys => Ok (y :: ys)
                | Raise e => Raise e
                end
      | Raise e => Raise e
      end
  end.

End Py.
Import Py.

Declare Scope py_scope.
Delimit Scope py_scope with py.
Notation "x <- c1 ;; c2" := (Py.bind c1 (fun x => c2))
  (at level 100, c1 at next level, right associativity) : py_scope.
Local Open Scope py_scope.

(* ================================================================== *)
(** ** Integrator (Utility.py, class Integrator) *)
(* ================================================================== *)

Module Integrator.

(** [class Weightings(Enum)] *)
Inductive Weightings : Type :=
| LINEAR
| SCALED
| TIME_AVERAGED.

(** [weighting == self.Weightings.X] on the value found under
    [kwWeighting] in [paramsCurrent]. *)
Definition weighting_eq (p : enum_param Weightings) (w : Weightings) : bool :=
  match p, w with
  | Member LINEAR, LINEAR => true
  | Member SCALED, SCALED => true
  | Member TIME_AVERAGED, TIME_AVERAGED => true
  | _, _ => false
  end.

(** [Integrator.execute], after [check_args] has stored the variable in
    [self.variable] and the parameters in [paramsCurrent].  [values[0]] and
    [values[1]] are numpy scalars and [rate] is a Python number, so that
    [1-rate] is Python's subtraction and the other operations are numpy's. *)
Definition execute (values : list scalar) (rate : scalar)
    (weighting : enum_param Weightings) : result scalar :=
  old_value <- getitem values 0 ;;
  new_value <- getitem values 1 ;;
  if weighting_eq weighting LINEAR then
    let value := Scalar.add old_value rate in
    Ok value
  else if weighting_eq weighting SCALED then
    let value := Scalar.add old_value (Scalar.mul new_value rate) in
    Ok value
  else if weighting_eq weighting TIME_AVERAGED then
    Ok (Scalar.add (Scalar.mul (Scalar.py_sub (I64 1) rate) old_value)
                   (Scalar.mul rate new_value))
  else
    Ok new_value.

End Integrator.

(* ================================================================== *)
(** ** numpy arithmetic on arrays of dimension at most two *)
(* ================================================================== *)

Module Np.

(** Elementwise [f] on two 1-d arrays under the broadcasting rule: equal
    lengths pair up, an operand of length one is stretched, and any other
    pair of lengths is a shape error. *)
Definition vec_op (f : scalar -> scalar -> scalar) (u v : list scalar)
  : result (list scalar) :=
  if length u =? length v then Ok (zip_with f u v)
  else match u, v with
       | [a], _ => Ok (map (f a) v)
       | _, [b] => Ok (map (fun x => f x b) u)
       | _, _ => Raise ValueError
       end.

(** The length of the broadcast of two 1-d arrays of lengths [n] and [k]
    that broadcast together. *)
Definition broadcast_length (n k : nat) : nat :=
  if n =? k then n else if n =? 1 then k else n.

(** The same rule on the outer dimension of two 2-d arrays. *)
Definition rows_op (f : scalar -> scalar -> scalar)
    (m m' : list (list scalar)) : result (list (list scalar)) :=
  if length m =? length m' then mapM (fun p => vec_op f p.1 p.2) (zip m m')
  else match m, m' with
       | [r], _ => mapM (fun r' => vec_op f r r') m'
       | _, [r'] => mapM (fun r => vec_op f r r') m
       | _, _ => Raise ValueError
       end.

(** [a op b] for arrays and numbers. *)
Definition binop (f : scalar -> scalar -> scalar) (a b : ndarray)
  : result ndarray :=
  match a, b with
  | Num x, Num y => Ok (Num (f x y))
  | Num x, Arr1 v => Ok (Arr1 (map (f x) v))
  | Arr1 u, Num y => Ok (Arr1 (map (fun x => f x y) u))
  | Arr1 u, Arr1 v => r <- vec_op f u v ;; Ok (Arr1 r)
  | Num x, Arr2 m => Ok (Arr2 (map (map (f x)) m))
  | Arr2 m, Num y => Ok (Arr2 (map (map (fun x => f x y)) m))
  | Arr2 m, Arr1 v => r <- mapM (fun row => vec_op f row v) m ;; Ok (Arr2 r)
  | Arr1 u, Arr2 m => r <- mapM (fun row => vec_op f u row) m ;; Ok (Arr2 r)
  | Arr2 m, Arr2 m' => r <- rows_op f m m' ;; Ok (Arr2 r)
  end.

Definition add : ndarray -> ndarray -> result ndarray := binop Scalar.add.
Definition mul : ndarray -> ndarray -> result ndarray := binop Scalar.mul.

(** Iterating over an array yields its items along the outer dimension. *)
Definition iter (a : ndarray) : result (list ndarray) :=
  match a with
  | Num _ => Raise TypeError
  | Arr1 v => Ok (map Num v)
  | Arr2 m => Ok (map Arr1 m)
  end.

(** Python's [sum(items)]: start from the integer 0 and add the items
    from left to right. *)
Definition py_sum (items : list ndarray) : result ndarray :=
  fold_left (fun acc x => a <- acc ;; add a x) items (Ok (Num (I64 0))).

(** Python's [reduce(mul, items, 1)]. *)
Definition reduce_mul (items : list ndarray) : result ndarray :=
  fold_left (fun acc x => a <- acc ;; mul a x) items (Ok (Num (I64 1))).

(** Column [j] of a 2-d array.  The sum and the product of a list of
    numbers as Python's [sum] and [reduce(mul, ., 1)] accumulate them: from
    the integer 0, or 1, and from left to right. *)
Definition column (m : list (list scalar)) (j : nat) : list scalar :=
  map (fun row => nth j row (I64 0)) m.
Definition total (l : list scalar) : scalar :=
  fold_left Scalar.add l (I64 0).
Definition product (l : list scalar) : scalar :=
  fold_left Scalar.mul l (I64 1).

(** [np.array(l)] for a Python list of numbers: the entries of an array
    have one type, [float64] as soon as one number of the list is a float. *)
Definition is_float (x : scalar) : bool :=
  match x with F64 _ => true | I64 _ => false end.
Definition array (l : list scalar) : list scalar :=
  if existsb is_float l then map (fun x => F64 (Scalar.to_float x)) l
  else l.

(** The rows of [np.matrix(rows)] for a rectangular list of rows; the
    matrix of an empty list has one row and no column. *)
Definition matrix (rows : list (list scalar)) : list (list scalar) :=
  match rows with
  | [] => [[]]
  | _ :: _ => rows
  end.

(** The shape of [np.matrix(rows)]. *)
Definition matrix_shape (rows : list (list scalar)) : nat * nat :=
  match rows with
  | [] => (1, 0)%nat
  | row :: _ => (length rows, length row)
  end.

(** [np.dot(v, m)] of a 1-d array and a 2-d array: entry [j] is the sum
    over [i] of [v[i] * m[i][j]], accumulated from zero in the order of
    [i]; the length of [v] must be the number of rows of [m].  On integers
    the order of the accumulation is immaterial.  On floats numpy leaves it
    to the linear-algebra library; the products of floats considered below
    are products with the identity matrix, in which at most one term of each
    sum is not a zero, so that the order does not matter. *)
Definition dot (v : list scalar) (m : list (list scalar))
  : result (list scalar) :=
  if length v =? length m then
    Ok (map (fun j => total (zip_with Scalar.mul v (column m j)))
            (seq 0 (matrix_shape m).2))
  else Raise ValueError.

(** [np.identity(n)], an array of floats: entry [i][j] is 1.0 on the
    diagonal and 0.0 elsewhere. *)
Definition delta (i j : nat) : scalar :=
  if i =? j then Scalar.fone else Scalar.fzero.
Definition identity (n : nat) : list (list scalar) :=
  map (fun i => map (fun j => delta i j) (seq 0 n)) (seq 0 n).

(** Modelled from the spec: [Main.np_array_less_than_2d] is imported from
    a module that is not part of the sources at hand; the comment at its
    call site reads "If variable is 0D or 1D", and the spec speaks of "a
    single number or a 1-D sequence of numbers". *)
Definition np_array_less_than_2d (a : ndarray) : bool :=
  ndim a <? 2.

End Np.

(* ================================================================== *)
(** ** Arithmetic (Utility.py, class Arithmetic) *)
(* ================================================================== *)

Module Arithmetic.

(** [class Operation(Enum)] *)
Inductive Operation : Type :=
| SUM
| PRODUCT.

Definition operation_is (p : enum_param Operation) (o : Operation) : bool :=
  match p, o with
  | Member SUM, SUM => true
  | Member PRODUCT, PRODUCT => true
  | _, _ => false
  end.

(** The value found under [kwWeights]: the class default [NotImplemented]
    or a Python list of numbers.  (Weights given as an [np.ndarray] are not
    modelled.) *)
Inductive weights_param : Type :=
| WNotImplemented
| WList (w : list scalar).

(** [if weights and not weights is NotImplemented]: [NotImplemented] is
    true, a list is true when it is not empty. *)
Definition weights_specified (weights : weights_param) : bool :=
  match weights with
  | WNotImplemented => false
  | WList [] => false
  | WList (_ :: _) => true
  end.

(** [Arithmetic.validate_params], after the inherited validation has
    filled [target_set]; returns the weights stored in [target_set].  The
    conversion of the weights calls [np.atleast], a name that numpy does
    not define, so the attribute lookup raises.  A member of [Operation] is
    always true. *)
Definition validate_params (weights : weights_param)
    (operation : enum_param Operation) : result weights_param :=
  weights' <- (if weights_specified weights then Raise AttributeError
               else Ok weights) ;;
  if negb (enum_truthy operation) then Raise UtilityError
  else if negb (operation_is operation SUM)
          && negb (operation_is operation PRODUCT) then Raise UtilityError
  else Ok weights'.

(** The block "Apply weights if they were specified" of [execute]:
    [self.variable = self.variable * weights] when the weights are
    specified and as many as the items of the variable; numpy turns the list
    of weights into an array for the product. *)
Definition apply_weights (variable : ndarray) (weights : weights_param)
  : result ndarray :=
  match weights with
  | WList ((_ :: _) as w) =>
      n <- len variable ;;
      if negb (length w =? n) then Raise UtilityError
      else Np.mul variable (Arr1 (Np.array w))
  | _ => Ok variable
  end.

(** [Arithmetic.execute], after [check_args] has stored the variable in
    [self.variable] and the parameters in [paramsCurrent].  In the last
    branch the argument of the error message dereferences an attribute
    [self] of the operation, which no object has, so the lookup raises
    before the [UtilityError] is built. *)
Definition execute (variable : ndarray) (weights : weights_param)
    (operation : enum_param Operation) (offset scale : scalar)
  : result ndarray :=
  if Np.np_array_less_than_2d variable then
    scaled <- Np.mul variable (Num scale) ;;
    Np.add scaled (Num offset)
  else
    variable' <- apply_weights variable weights ;;
    items <- Np.iter variable' ;;
    if operation_is operation SUM then
      total <- Np.py_sum items ;;
      scaled <- Np.mul total (Num scale) ;;
      Np.add scaled (Num offset)
    else if operation_is operation PRODUCT then
      Np.reduce_mul items
    else
      Raise AttributeError.

End Arithmetic.

(* ================================================================== *)
(** ** Utility_Base (Utility.py): the output-type conversion mode *)
(* ================================================================== *)

Module Utility_Base.

(** [class UtilityFunctionOutputType(IntEnum)] *)
Inductive UtilityFunctionOutputType : Type :=
| RAW_NUMBER
| NP_1D_ARRAY
| NP_2D_ARRAY.

Definition int_value (t : UtilityFunctionOutputType) : Z :=
  match t with
  | RAW_NUMBER => 0
  | NP_1D_ARRAY => 1
  | NP_2D_ARRAY => 2
  end.

(** A value assigned to the attribute [functionOutputType]: [None], a
    member of the enumeration, or any other object, of which only the
    truth value matters. *)
Inductive mode : Type :=
| PyNone
| OutputType (t : UtilityFunctionOutputType)
| OtherValue (truthy : bool).

(** The truth value of a mode; a member of an [IntEnum] is true when its
    integer is not zero. *)
Definition mode_truthy (v : mode) : bool :=
  match v with
  | PyNone => false
  | OutputType t => negb (int_value t =? 0)%Z
  | OtherValue b => b
  end.

(** [isinstance(value, UtilityFunctionOutputType)] *)
Definition is_output_type (v : mode) : bool :=
  match v with OutputType _ => true | _ => false end.

(** [value is UtilityFunctionOutputType.RAW_NUMBER] *)
Definition is_RAW_NUMBER (v : mode) : bool :=
  match v with OutputType RAW_NUMBER => true | _ => false end.

(** The part of a utility function that the conversion mode reads and
    writes: [self.variable], [paramsCurrent[kwFunctionOutputTypeConversion]]
    and [self._functionOutputType]. *)
Record t : Type := mk {
  variable : ndarray;
  conversion_enabled : bool;
  _functionOutputType : mode
}.

(** [__init__] sets [self._functionOutputType = None]. *)
Definition init (variable : ndarray) (conversion_enabled : bool) : t :=
  mk variable conversion_enabled PyNone.

(** The property [functionOutputType]. *)
Definition functionOutputType (self : t) : mode :=
  if conversion_enabled self then _functionOutputType self else PyNone.

(** The setter of [functionOutputType]. *)
Definition set_functionOutputType (self : t) (value : mode) : result t :=
  if mode_truthy value && negb (conversion_enabled self) then
    Raise UtilityError
  else if mode_truthy value && negb (is_output_type value) then
    Raise UtilityError
  else
    n <- len (variable self) ;;
    if (1 <? n) && is_RAW_NUMBER (functionOutputType self) then
      Raise UtilityError
    else
      Ok (mk (variable self) (conversion_enabled self) value).

End Utility_Base.

(* ================================================================== *)
(** ** Linear (Utility.py, class Linear) *)
(* ================================================================== *)

Module Linear.
Import Utility_Base.

(** [Linear.execute], after [check_args].  The conversion to a 2-d array
    calls [np.atleast2d], a name that numpy does not define. *)
Definition execute (self : Utility_Base.t) (slope intercept : scalar)
  : result ndarray :=
  let variable := Utility_Base.variable self in
  scaled <- Np.mul variable (Num slope) ;;
  result <- Np.add scaled (Num intercept) ;;
  let outputType := functionOutputType self in
  match outputType with
  | OutputType NP_2D_ARRAY => Raise AttributeError
  | OutputType NP_1D_ARRAY =>
      if ndim variable =? 2 then
        n <- len variable ;;
        if n =? 1 then item0 result
        else Raise UtilityError
      else
        n <- len variable ;;
        if n =? 1 then Ok result
        else if n =? 0 then Ok result
        else Raise UtilityError
  | OutputType RAW_NUMBER =>
      if ndim variable =? 2 then
        n <- len variable ;;
        if n =? 1 then
          row <- item0 variable ;;
          k <- len row ;;
          if k =? 1 then
            first <- item0 result ;;
            item0 first
          else Raise UtilityError
        else Raise UtilityError
      else
        n <- len variable ;;
        if n =? 1 then item0 result
        else Ok result
  | _ => Ok result
  end.

End Linear.

(* ================================================================== *)
(** ** LinearMatrix (Utility.py, class LinearMatrix) *)
(* ================================================================== *)

Module LinearMatrix.

(** The value found under [kwMatrix]: a number (the filler), the keyword
    [kwIdentityMatrix], a matrix given as a Python list of rows, a matrix
    given as an [np.matrix], or anything else.  The rows of a matrix are
    lists of numbers of one length.  (A matrix given as an [np.ndarray] is
    not modelled.) *)
Inductive matrix_spec : Type :=
| Filler (x : scalar)
| IdentityMatrix
| MatrixList (rows : list (list scalar))
| MatrixNp (rows : list (list scalar))
| OtherSpec.

(** [kwDefaultMatrix = kwIdentityMatrix] *)
Definition kwDefaultMatrix : matrix_spec := IdentityMatrix.

(** What [self.matrix] holds: an [np.matrix], or the [np.ndarray] that
    [np.identity] returns. *)
Inductive implemented : Type :=
| NpMatrix (rows : list (list scalar))
| NdArray (rows : list (list scalar)).

Definition rows_of (m : implemented) : list (list scalar) :=
  match m with NpMatrix rows => rows | NdArray rows => rows end.

Record t : Type := mk {
  variable : list scalar;          (* the sender vector *)
  receiver : list scalar;          (* self.receiver *)
  kwReceiver : list scalar;        (* paramsCurrent[kwReceiver] *)
  kwMatrix : matrix_spec;      (* paramsCurrent[kwMatrix] *)
  matrix : implemented;        (* self.matrix *)
  base : Utility_Base.t
}.

(** [LinearMatrix.validate_variable]: the variable is a 1-d array. *)
Definition validate_variable (variable : ndarray) : result (list scalar) :=
  match variable with
  | Arr1 v => Ok v
  | _ => Raise UtilityError
  end.

(** The checks of [validate_params] on the entry [kwMatrix]; the result is
    the entry [kwReceiver] of [param_set] afterwards. *)
Definition validate_matrix (sender receiver : list scalar) (spec : matrix_spec)
  : result (list scalar) :=
  let sender_len := length sender in
  let receiver_len := length receiver in
  match spec with
  | Filler _ => Ok receiver
  | IdentityMatrix =>
      if negb (receiver_len =? sender_len) then Ok sender else Ok receiver
  | MatrixList rows | MatrixNp rows =>
      let matrix_rows := (Np.matrix_shape rows).1 in
      let matrix_cols := (Np.matrix_shape rows).2 in
      if negb (matrix_rows =? sender_len) then Raise UtilityError
      else if negb (matrix_cols =? receiver_len) then Raise UtilityError
      else Ok receiver
  | OtherSpec => Raise UtilityError
  end.

(** [LinearMatrix.validate_params].  [declared] is the entry [kwReceiver]
    of [param_set] when there is one, and [unrecognized] tells whether
    [param_set] has an entry other than [kwReceiver],
    [kwFunctionOutputTypeConversion] and [kwMatrix].  The result is
    [self.receiver] and the entry [kwReceiver] of [param_set]. *)
Definition validate_params (sender : list scalar) (declared : option (list scalar))
    (spec : matrix_spec) (unrecognized : bool)
  : result (list scalar * list scalar) :=
  let receiver := match declared with
                  | Some r => r
                  | None => sender
                  end in
  receiver_param <- validate_matrix sender receiver spec ;;
  if unrecognized then Raise UtilityError
  else Ok (receiver, receiver_param).

(** [LinearMatrix.implement_matrix]; [specification = None] stands for
    the default [NotImplemented] of the argument. *)
Definition implement_matrix (sender receiver : list scalar)
    (specification : option matrix_spec) : result implemented :=
  let specification := match specification with
                       | Some spec => spec
                       | None => IdentityMatrix
                       end in
  match specification with
  | MatrixNp rows => Ok (NpMatrix rows)
  | Filler x =>
      Ok (NpMatrix
            (Np.matrix
               (replicate (length sender) (replicate (length receiver) x))))
  | IdentityMatrix =>
      if negb (length sender =? length receiver) then Raise UtilityError
      else Ok (NdArray (Np.identity (length sender)))
  | _ => Raise UtilityError
  end.

(** [np.dot(self.variable, self.matrix)]: with an [np.ndarray] the product
    is a 1-d array; with an [np.matrix] it is a matrix of one row. *)
Definition dot_matrix (v : list scalar) (m : implemented) : result ndarray :=
  r <- Np.dot v (rows_of m) ;;
  match m with
  | NdArray _ => Ok (Arr1 r)
  | NpMatrix _ => Ok (Arr2 [r])
  end.

(** [LinearMatrix.execute], after [check_args] has validated the variable
    (parameters passed with the call are not modelled). *)
Definition execute (self : t) (variable : ndarray) : result ndarray :=
  v <- validate_variable variable ;;
  dot_matrix v (matrix self).

(** Modelled from the spec: [Function.__init__], which every constructor
    reaches through [super().__init__], is not part of the sources at
    hand.  Following the spec (4.3: "merge params, run subclass
    validation, then perform one canonical call with the resolved default
    variable") and the notes in [Projection_Base.__init__], it validates
    the variable, validates the parameters, calls the hook
    [instantiate_attributes_before_execute_method] (which [LinearMatrix]
    overrides with [self.matrix = self.implement_matrix()]) and executes
    once.  The last line is the assignment that closes
    [LinearMatrix.__init__]. *)
Definition init (variable_default : ndarray) (declared : option (list scalar))
    (spec : matrix_spec) (unrecognized : bool) : result t :=
  sender <- validate_variable variable_default ;;
  rp <- validate_params sender declared spec unrecognized ;;
  hook_matrix <- implement_matrix sender rp.1 None ;;
  _ <- dot_matrix sender hook_matrix ;;
  matrix <- implement_matrix sender rp.1 (Some spec) ;;
  Ok (mk sender rp.1 rp.2 spec matrix
         (Utility_Base.init (Arr1 sender) false)).

End LinearMatrix.

(* ================================================================== *)
(** ** Value compatibility (Main.iscompatible) *)
(* ================================================================== *)

Module Main.

(** Modelled from the spec: [Main.iscompatible] is imported from a module
    that is not part of the sources at hand.  The spec (4.1): two values
    are compatible if both are single numbers; or both are sequences of
    numbers of equal length; or both are sequences of sequences with
    matching outer and inner lengths; or one is a single number and the
    other a length-1 sequence. *)
Definition iscompatible (candidate reference : ndarray) : bool :=
  match candidate, reference with
  | Num _, Num _ => true
  | Arr1 u, Arr1 v => length u =? length v
  | Arr2 m, Arr2 m' =>
      (length m =? length m')
      && forallb (fun p => length p.1 =? length p.2) (zip m m')
  | Num _, Arr1 [_] => true
  | Arr1 [_], Num _ => true
  | _, _ => false
  end.

End Main.

(* ================================================================== *)
(** ** States of mechanisms *)
(* ================================================================== *)

Module MechanismState.

(** A state of a mechanism, as far as the wiring reads and writes it.
    [is_MechanismOutputState] is [isinstance(state, MechanismOutputState)].
    [process_input] is [Some names] exactly when the state is a
    [ProcessInputState]; [names] is then the list
    [state.ownerMechanism.configurationMechanismNames] of the process that
    owns it.  Projections are entered in the two lists by identity, here a
    number. *)
Record t : Type := mk {
  is_MechanismOutputState : bool;
  process_input : option (list string);
  value : ndarray;
  variable : ndarray;
  sendsToProjections : list nat;
  receivesFromProjections : list nat
}.

(** [state.sendsToProjections.append(p)] *)
Definition append_sendsTo (st : t) (p : nat) : t :=
  mk (is_MechanismOutputState st) (process_input st) (value st)
     (variable st) (sendsToProjections st ++ [p])
     (receivesFromProjections st).

(** [state.receivesFromProjections.append(p)] *)
Definition append_receivesFrom (st : t) (p : nat) : t :=
  mk (is_MechanismOutputState st) (process_input st) (value st)
     (variable st) (sendsToProjections st)
     (receivesFromProjections st ++ [p]).

End MechanismState.

(* ================================================================== *)
(** ** Shared objects of the wiring (Projections/Projection.py) *)
(* ================================================================== *)

Module Projection.

Record Mechanism : Type := mkMechanism {
  inputState : nat;
  outputState : nat
}.

(** The objects that projections share: states and mechanisms, by
    reference. *)
Record world : Type := mkWorld {
  states : gmap nat MechanismState.t;
  mechanisms : gmap nat Mechanism
}.

(** What [self.sender] or [self.receiver] may hold: [NotImplemented], a
    class (of which [issubclass(_, MechanismOutputState)] is kept), a
    mechanism, or a state. *)
Inductive endpoint : Type :=
| NotSpecified
| ClassRef (output_state_subclass : bool)
| MechanismRef (m : nat)
| StateRef (s : nat).

(** What [self.execute] is bound to after [instantiate_execute_method]:
    the function built from [kwExecuteMethod], or the method that the
    class of the projection had of its own, of which the output recorded
    in [self.value] is kept. *)
Inductive method : Type :=
| Unbound
| Transform (f : LinearMatrix.t)
| OwnMethod (output : ndarray).

(** The entry [kwExecuteMethodParams] for the [LinearMatrix] that
    [kwExecuteMethod] names: the declared receiver, the matrix and whether
    there are further entries. *)
Record ExecuteMethodParams : Type := mkParams {
  kwReceiver : option (list scalar);
  kwMatrix : LinearMatrix.matrix_spec;
  unrecognized : bool
}.

(** The projection.  [own_execute] is [Some output] when the attribute
    [execute] exists before [kwExecuteMethod] is instantiated, [output]
    being [self.value] at that moment. *)
Record t : Type := mk {
  self_id : nat;
  sender : endpoint;
  receiver : endpoint;
  variable : ndarray;
  value : ndarray;
  kwProjectionSenderValue : ndarray;
  kwExecuteMethodParams : ExecuteMethodParams;
  own_execute : option ndarray;
  execute : method
}.

Definition set_sender (self : t) (e : endpoint) : t :=
  mk (self_id self) e (receiver self) (variable self) (value self)
     (kwProjectionSenderValue self) (kwExecuteMethodParams self)
     (own_execute self) (execute self).
Definition set_receiver (self : t) (e : endpoint) : t :=
  mk (self_id self) (sender self) e (variable self) (value self)
     (kwProjectionSenderValue self) (kwExecuteMethodParams self)
     (own_execute self) (execute self).
Definition set_variable (self : t) (v : ndarray) : t :=
  mk (self_id self) (sender self) (receiver self) v (value self)
     (kwProjectionSenderValue self) (kwExecuteMethodParams self)
     (own_execute self) (execute self).
Definition set_value (self : t) (v : ndarray) : t :=
  mk (self_id self) (sender self) (receiver self) (variable self) v
     (kwProjectionSenderValue self) (kwExecuteMethodParams self)
     (own_execute self) (execute self).
Definition set_execute (self : t) (f : method) : t :=
  mk (self_id self) (sender self) (receiver self) (variable self)
     (value self) (kwProjectionSenderValue self)
     (kwExecuteMethodParams self) (own_execute self) f.

(** *** Calls that read and write the shared objects

    A call takes the world and gives back a result and the world as it has
    left it; what was written before an exception stays written. *)
Definition M (A : Type) : Type := world -> result A * world.

Definition ret {A} (a : A) : M A := fun w => (Ok a, w).
Definition raise {A} (e : exn) : M A := fun w => (Raise e, w).
Definition lift {A} (r : result A) : M A := fun w => (r, w).
Definition bindM {A B} (c : M A) (k : A -> M B) : M B :=
  fun w => match c w with
           | (Ok a, w') => k a w'
           | (Raise e, w') => (Raise e, w')
           end.

(** The state that a reference denotes.  A reference always denotes an
    object in Python; a number that denotes none is made an error. *)
Definition get_state (s : nat) : M MechanismState.t :=
  fun w => match states w !! s with
           | Some st => (Ok st, w)
           | None => (Raise ReferenceError, w)
           end.

Definition get_mechanism (m : nat) : M Mechanism :=
  fun w => match mechanisms w !! m with
           | Some mech => (Ok mech, w)
           | None => (Raise ReferenceError, w)
           end.

Definition put_state (s : nat) (st : MechanismState.t) : M unit :=
  fun w => (Ok tt, mkWorld (<[s := st]> (states w)) (mechanisms w)).

(** The projections entered in the lists of the state that [s] denotes. *)
Definition sends (w : world) (s : nat) : list nat :=
  match states w !! s with
  | Some st => MechanismState.sendsToProjections st
  | None => []
  end.

Definition receives (w : world) (s : nat) : list nat :=
  match states w !! s with
  | Some st => MechanismState.receivesFromProjections st
  | None => []
  end.

(** Modelled from the spec: the constructor of [MechanismOutputState] is
    not part of the sources at hand.  The spec (4.4, step 2): "if sender
    is a class reference, instantiate a default instance of that class
    using the declared default sender value".  The new state takes the
    first free number. *)
Definition new_output_state (value : ndarray) : M nat :=
  fun w =>
    let s := fresh (dom (states w)) in
    (Ok s,
     mkWorld (<[s := MechanismState.mk true None value value [] []]> (states w))
             (mechanisms w)).

End Projection.

Notation "x <-- c1 ;; c2" := (Projection.bindM c1 (fun x => c2))
  (at level 100, c1 at next level, right associativity) : py_scope.

(* ================================================================== *)
(** ** Projection_Base (Projections/Projection.py) *)
(* ================================================================== *)

Module Projection_Base.
Import Projection.

(** Modelled from the spec: [Function.assign_defaults] is not part of the
    sources at hand.  The spec (4.4, step 2): "on mismatch, reassign the
    projection's variable to match the sender". *)
Definition assign_defaults (self : t) (variable : ndarray) : M t :=
  ret (set_variable self variable).

(** [Projection_Base.instantiate_sender] *)
Definition instantiate_sender (self : t) : M t :=
  self <-- (match sender self with
            | ClassRef output_state_subclass =>
                if output_state_subclass then
                  s <-- new_output_state (kwProjectionSenderValue self) ;;
                  ret (set_sender self (StateRef s))
                else raise ProjectionError
            | _ => ret self
            end) ;;
  self <-- (match sender self with
            | MechanismRef m =>
                mech <-- get_mechanism m ;;
                ret (set_sender self (StateRef (outputState mech)))
            | _ => ret self
            end) ;;
  match sender self with
  | StateRef s =>
      st <-- get_state s ;;
      if negb (MechanismState.is_MechanismOutputState st) then raise ProjectionError
      else
        _ <-- put_state s (MechanismState.append_sendsTo st (self_id self)) ;;
        if Main.iscompatible (variable self) (MechanismState.value st) then
          ret (set_variable self (MechanismState.value st))
        else
          assign_defaults self (MechanismState.value st)
  | _ => raise ProjectionError
  end.

(** [Projection_Base.instantiate_receiver].  A receiver that is neither a
    mechanism nor a state has no attribute [receivesFromProjections]. *)
Definition instantiate_receiver (self : t) : M t :=
  self <-- (match receiver self with
            | MechanismRef m =>
                mech <-- get_mechanism m ;;
                ret (set_receiver self (StateRef (inputState mech)))
            | _ => ret self
            end) ;;
  match receiver self with
  | StateRef r =>
      st <-- get_state r ;;
      _ <-- put_state r (MechanismState.append_receivesFrom st (self_id self)) ;;
      ret self
  | _ => raise AttributeError
  end.

(** [Projection_Base.instantiate_attributes_before_execute_method]; the
    two calls go through [self], so that the method of the subclass runs
    where it overrides one. *)
Definition instantiate_attributes_before_execute_method
    (self_instantiate_sender self_instantiate_receiver : t -> M t)
    (self : t) : M t :=
  self <-- self_instantiate_sender self ;;
  self_instantiate_receiver self.

(** Modelled from the spec: [Function.instantiate_execute_method] is not
    part of the sources at hand.  The spec (4.4, step 4, and 4.3): build
    the function named by [kwExecuteMethod], bound to the projection's
    variable, and call it once to establish its output.  [kwExecuteMethod]
    is [LinearMatrix], the default of [Mapping]. *)
Definition Function_instantiate_execute_method (self : t) : result t :=
  let variable := variable self in
  let params := kwExecuteMethodParams self in
  f <- LinearMatrix.init variable (kwReceiver params) (kwMatrix params)
                         (unrecognized params) ;;
  output <- LinearMatrix.execute f variable ;;
  Ok (set_value (set_execute self (Transform f)) output).

(** The function that [self.execute.__self__] is. *)
Definition execute_self (self : t) : result LinearMatrix.t :=
  match execute self with
  | Transform f => Ok f
  | _ => Raise AttributeError
  end.

(** Assigning to [self.execute.__self__.functionOutputType] inside
    [try: ... except UtilityError as error:].  The handler reads
    [error.value], an attribute that [UtilityError] does not have (it has
    [error_value]), so a [UtilityError] of the setter leaves the handler as
    an [AttributeError]. *)
Definition try_set_functionOutputType (self : t)
    (value : Utility_Base.UtilityFunctionOutputType) : result t :=
  f <- execute_self self ;;
  match Utility_Base.set_functionOutputType
          (LinearMatrix.base f) (Utility_Base.OutputType value) with
  | Ok base' =>
      Ok (set_execute self
            (Transform (LinearMatrix.mk
                          (LinearMatrix.variable f) (LinearMatrix.receiver f)
                          (LinearMatrix.kwReceiver f) (LinearMatrix.kwMatrix f)
                          (LinearMatrix.matrix f) base')))
  | Raise UtilityError => Raise AttributeError
  | Raise e => Raise e
  end.

(** [self.execute()] with no argument: the function runs on its own
    variable. *)
Definition call_execute (self : t) : result ndarray :=
  match execute self with
  | Transform f => LinearMatrix.execute f (Arr1 (LinearMatrix.variable f))
  | OwnMethod output => Ok output
  | Unbound => Raise AttributeError
  end.

(** The body of the outer [try:] of [instantiate_execute_method].  The
    boolean tells whether the method returns from inside the block. *)
Definition try_to_number (self : t) (receiver projection_output : ndarray)
  : result (bool * t) :=
  if is_number receiver then
    n <- len projection_output ;;
    if n =? 1 then
      self <- try_set_functionOutputType self Utility_Base.RAW_NUMBER ;;
      let self := set_value self (Num (I64 0)) in
      output <- call_execute self ;;
      if Main.iscompatible receiver output then Ok (true, self)
      else Ok (false, self)
    else Ok (false, self)
  else Ok (false, self).

(** The body of [except TypeError:]. *)
Definition try_to_1d_array (self : t) (receiver projection_output : ndarray)
  : result (bool * t) :=
  if is_number projection_output then
    n <- len receiver ;;
    if n =? 1 then
      self <- try_set_functionOutputType self Utility_Base.NP_1D_ARRAY ;;
      Ok (true, set_value self (Arr1 [I64 0]))
    else Ok (false, self)
  else Ok (false, self).

(** [Projection_Base.instantiate_execute_method] *)
Definition instantiate_execute_method (self : t) : M t :=
  let self_execute_output := own_execute self in
  self <-- lift (Function_instantiate_execute_method self) ;;
  match receiver self with
  | StateRef r =>
      rcv <-- get_state r ;;
      if Main.iscompatible (value self) (MechanismState.variable rcv) then ret self
      else
        let receiver := MechanismState.variable rcv in
        let projection_output := value self in
        attempt <-- lift (match try_to_number self receiver projection_output with
                          | Raise TypeError =>
                              try_to_1d_array self receiver projection_output
                          | r => r
                          end) ;;
        if attempt.1 then ret attempt.2
        else
          let self := attempt.2 in
          match self_execute_output with
          | None => raise ProjectionError
          | Some output =>
              if negb (Main.iscompatible output (MechanismState.variable rcv)) then
                raise ProjectionError
              else
                ret (set_value (set_execute self (OwnMethod output)) output)
          end
  | _ => raise AttributeError
  end.

End Projection_Base.

(* ================================================================== *)
(** ** Mapping (Projections/Mapping.py) *)
(* ================================================================== *)

Module Mapping.
Import Projection.

(** [paramClassDefaults]: [kwExecuteMethod] is [LinearMatrix],
    [kwExecuteMethodParams] is [{kwMatrix: kwDefaultMatrix}] and
    [kwProjectionSenderValue] is [[1]]. *)
Definition default_kwExecuteMethodParams : ExecuteMethodParams :=
  mkParams None LinearMatrix.kwDefaultMatrix false.
Definition default_kwProjectionSenderValue : ndarray := Arr1 [I64 1].

(** [Mapping.instantiate_sender] *)
Definition instantiate_sender (self : t) : M t :=
  _ <-- (match sender self with
         | StateRef s =>
             st <-- get_state s ;;
             match MechanismState.process_input st with
             | Some configurationMechanismNames =>
                 let mech_num := length configurationMechanismNames in
                 if 1 <? mech_num then raise ProjectionError
                 else ret tt
             | None => ret tt
             end
         | _ => ret tt
         end) ;;
  Projection_Base.instantiate_sender self.

(** [len(x)] inside [try: ... except TypeError: ... = 1] *)
Definition len_or_1 (a : ndarray) : nat :=
  match len a with
  | Ok n => n
  | Raise _ => 1
  end.

(** [Mapping.instantiate_execute_method] *)
Definition instantiate_execute_method (self : t) : M t :=
  self <-- Projection_Base.instantiate_execute_method self ;;
  match receiver self with
  | StateRef r =>
      rcv <-- get_state r ;;
      let receiver_len := len_or_1 (MechanismState.value rcv) in
      let mapping_input_len := len_or_1 (value self) in
      if negb (receiver_len =? mapping_input_len) then raise ProjectionError
      else ret self
  | _ => raise AttributeError
  end.

(** Modelled from the spec: [Function.__init__], reached from
    [Mapping.__init__] through [Projection_Base.__init__], is not part of
    the sources at hand.  The spec (4.4, steps 2 to 5) and the notes in
    [Projection_Base.__init__] give the order: once the parameters are
    validated, [instantiate_attributes_before_execute_method] (sender, then
    receiver), then [instantiate_execute_method].  The projection passed
    in is the object as [Projection_Base.__init__] and [validate_params]
    have left it. *)
Definition init (self : t) : M t :=
  self <-- Projection_Base.instantiate_attributes_before_execute_method
             instantiate_sender Projection_Base.instantiate_receiver self ;;
  instantiate_execute_method self.

(** [Mapping.update]: [self.execute(self.sender.value)] *)
Definition update (self : t) : M ndarray :=
  match sender self with
  | StateRef s =>
      st <-- get_state s ;;
      match execute self with
      | Transform f => lift (LinearMatrix.execute f (MechanismState.value st))
      | OwnMethod output => ret output
      | Unbound => raise AttributeError
      end
  | _ => raise AttributeError
  end.

End Mapping.

(* ================================================================== *)
(** ** Objects for the examples *)
(* ================================================================== *)

Module Scenario.
Import Projection.

(** State 0 is the output state of a mechanism, of value [1, 2]; state 1 is
    the input state of another, of length 3; state 2 is an input state of
    length 2.  No projection is registered yet. *)
Definition output_state : MechanismState.t :=
  MechanismState.mk true None (Arr1 [I64 1; I64 2]) (Arr1 [I64 1; I64 2]) [] [].
Definition input_state_3 : MechanismState.t :=
  MechanismState.mk false None (Arr1 [I64 0; I64 0; I64 0]) (Arr1 [I64 0; I64 0; I64 0]) [] [].
Definition input_state_2 : MechanismState.t :=
  MechanismState.mk false None (Arr1 [I64 0; I64 0]) (Arr1 [I64 0; I64 0]) [] [].

Definition w : world :=
  mkWorld (<[0%nat := output_state]>
             (<[1%nat := input_state_3]> (<[2%nat := input_state_2]> ∅)))
          ∅.

(** [Mapping(sender=<state 0>, receiver=<state r>)] with the defaults of
    the class, as the object 7. *)
Definition mapping (r : nat) : t :=
  mk 7 (StateRef 0) (StateRef r) (Arr1 [I64 1; I64 2]) (Arr1 [I64 0])
     Mapping.default_kwProjectionSenderValue
     Mapping.default_kwExecuteMethodParams None Unbound.

(** A [ProcessInputState] of value [5], whose process lists [names] as the
    mechanisms of its configuration, and the projection from it to the
    state 1 of the world that holds it as the state 0. *)
Definition process_input_state (names : list string) : MechanismState.t :=
  MechanismState.mk true (Some names) (Arr1 [I64 5]) (Arr1 [I64 5]) [] [].
Definition process_world (names : list string) : world :=
  mkWorld (<[0%nat := process_input_state names]>
             (<[1%nat := MechanismState.mk false None (Arr1 [I64 0]) (Arr1 [I64 0]) [] []]> ∅))
          ∅.

(** The outcome of constructing the Mapping from state 0 to state 1. *)
Definition refused : result t * world := Mapping.init (mapping 1) w.

(** A function with output conversion enabled, as [Linear] is, on the
    variable [7, 8]: as its constructor leaves it, and with the mode
    RAW_NUMBER stored. *)
Definition linear_7_8 : Utility_Base.t :=
  Utility_Base.init (Arr1 [I64 7; I64 8]) true.
Definition linear_7_8_raw : Utility_Base.t :=
  Utility_Base.mk (Arr1 [I64 7; I64 8]) true
    (Utility_Base.OutputType Utility_Base.RAW_NUMBER).

(** A sender of length 2, a receiver of length 3, a 2x2 matrix and a 2x3
    matrix. *)
Definition sender_2 : list scalar := [I64 0; I64 0].
Definition receiver_3 : list scalar := [I64 0; I64 0; I64 0].
Definition square_2x2 : list (list scalar) := [[I64 1; I64 0]; [I64 0; I64 1]].
Definition wide_2x3 : list (list scalar) := [[I64 1; I64 0; I64 0]; [I64 0; I64 1; I64 0]].

End Scenario.

(* ================================================================== *)
(** ** Contradiction (Utility.py, class Contradiction) *)
(* ================================================================== *)

Module Contradiction.

(** [class Manner(Enum)] *)
Inductive Manner : Type :=
| OBSEQUIOUS
| CONTRARIAN.

(** [propensity == self.Manner.X] *)
Definition manner_eq (p : enum_param Manner) (m : Manner) : bool :=
  match p, m with
  | Member OBSEQUIOUS, OBSEQUIOUS => true
  | Member CONTRARIAN, CONTRARIAN => true
  | _, _ => false
  end.

(** [x < y] on numbers. *)
Definition ltb (x y : Qc) : bool :=
  match x ?= y with
  | Lt => true
  | _ => false
  end.

(** [x <= y] on numbers. *)
Definition leb (x y : Qc) : bool :=
  match x ?= y with
  | Gt => false
  | _ => true
  end.

(** [paramClassDefaults]: [kwPropensity] is [Manner.CONTRARIAN] and
    [kwPertinacity] is 10. *)
Definition default_propensity : enum_param Manner := Member CONTRARIAN.
Definition default_pertinacity : Qc := int 10.

(** The value given for [kwPertinacity]: a number or something else. *)
Inductive pertinacity_value : Type :=
| Number (q : Qc)
| NotANumber.

(** The checks that [Contradiction.validate_params] makes itself, before it
    hands over to the inherited method; each argument is the entry of
    [request_set] under the key, if there is one. *)
Definition validate_params (propensity : option (enum_param Manner))
    (pertinacity : option pertinacity_value) : result unit :=
  let propensity_ok :=
    match propensity with
    | Some (Member _) => true
    | Some (Other _) => false
    | None => true
    end in
  let pertinacity_ok :=
    match pertinacity with
    | Some (Number q) => leb 0 q && leb q (int 10)
    | Some NotANumber => false
    | None => true
    end in
  if propensity_ok && pertinacity_ok then Ok tt
  else Raise UtilityError.

(** [Contradiction.execute], after [check_args]; [whim] is the number that
    [randint(-10, 10)] returns. *)
Definition execute (propensity : enum_param Manner) (pertinacity : Qc)
    (whim : Z) : result bool :=
  if manner_eq propensity OBSEQUIOUS then
    Ok (ltb (int whim) pertinacity)
  else if manner_eq propensity CONTRARIAN then
    Ok (ltb pertinacity (int whim))
  else
    Raise UtilityError.

End Contradiction.

(* ================================================================== *)
(** ** Projection_Base.validate_params (Projections/Projection.py) *)
(* ================================================================== *)

Module Projection_Base_params.

(** A Python object as [validate_params] sees it: its identity, and the
    truth of [isinstance(x, (Mechanism, MechanismState))], of
    [isinstance(x, Process)] and of [inspect.isclass(x) and (issubclass(x,
    Mechanism) or issubclass(x, MechanismState))]. *)
Record pyobj : Type := mkObj {
  oid : nat;
  is_Mechanism_or_State : bool;
  is_Process : bool;
  is_Mechanism_or_State_class : bool
}.

(** The sender argument kept in [self.sender]: [NotImplemented] when it was
    not given. *)
Inductive sender_arg : Type :=
| NotImplemented
| Given (o : pyobj).

(** [Projection_Base.validate_params], after the inherited validation.
    [sender_param] is the entry [kwProjectionSender] of [target_set], if
    there is one; [class_default] is [paramClassDefaults[kwProjectionSender]].
    The result is [self.sender].  When the entry is neither an instance nor a
    class of [Mechanism] or [MechanismState], each of the three branches
    assigns the class default and the method then calls [isinstance] with
    three arguments, which raises.  (The messages printed under verbosePref
    are not modelled.) *)
Definition validate_params (sender : sender_arg) (sender_param : option pyobj)
    (class_default : pyobj) : result sender_arg :=
  match sender_param with
  | None => Raise ProjectionError
  | Some sender_param =>
      if is_Mechanism_or_State sender_param
         || is_Mechanism_or_State_class sender_param then
        if negb (oid sender_param =? oid class_default) then
          Ok (Given sender_param)
        else
          match sender with
          | NotImplemented => Ok (Given sender_param)
          | Given o =>
              if negb (is_Mechanism_or_State o || is_Process o
                       || is_Mechanism_or_State_class o) then
                Ok (Given sender_param)
              else Ok sender
          end
      else Raise TypeError
  end.

End Projection_Base_params.

(* ================================================================== *)
(** ** Default senders of the projection classes (Functions/__init__.py) *)
(* ================================================================== *)

Module Init.

(** A class, with the truth of [issubclass(c, Mechanism_Base) or
    issubclass(c, MechanismState_Base)]. *)
Record pyclass : Type := mkClass {
  class_name : string;
  is_Mechanism_or_State_subclass : bool
}.

(** The entry [kwProjectionSender] of the [paramClassDefaults] of a
    projection class: a class, a string, or another object, of which
    [isinstance(x, (Mechanism_Base, MechanismState_Base))] is kept. *)
Inductive sender_default : Type :=
| AClass (c : pyclass)
| AString (s : string)
| AnObject (is_Mechanism_or_State : bool).

(** One turn of the loop "Validate / assign default sender for each
    Projection subclass", for a class that has the entry: the entry as the
    turn leaves it, and whether the turn ends the loop with [InitError]. *)
Inductive turn : Type :=
| Continue (entry : sender_default)
| InitError (entry : sender_default).

Definition entry_of (t : turn) : sender_default :=
  match t with Continue e => e | InitError e => e end.

(** Each registry gives, under a name, the class [registry[name].subclass]. *)
Definition resolve (MechanismRegistry MechanismStateRegistry : gmap string pyclass)
    (projection_sender : sender_default) : turn :=
  match projection_sender with
  | AClass c =>
      if is_Mechanism_or_State_subclass c then Continue projection_sender
      else InitError projection_sender
  | AnObject is_Mechanism_or_State =>
      if is_Mechanism_or_State then Continue projection_sender
      else InitError projection_sender
  | AString name =>
      let entry := match MechanismRegistry !! name with
                   | Some c => AClass c
                   | None => projection_sender
                   end in
      match MechanismStateRegistry !! name with
      | Some c => Continue (AClass c)
      | None => InitError entry
      end
  end.

(** The loop over the projection classes, in the order of the registry: the
    entries as the loop leaves them, and whether it was ended by
    [InitError]. *)
Fixpoint resolve_all (MechanismRegistry MechanismStateRegistry : gmap string pyclass)
    (entries : list sender_default) : list sender_default * bool :=
  match entries with
  | [] => ([], false)
  | e :: rest =>
      match resolve MechanismRegistry MechanismStateRegistry e with
      | Continue e' =>
          let r := resolve_all MechanismRegistry MechanismStateRegistry rest in
          (e' :: r.1, r.2)
      | InitError e' => (e' :: rest, true)
      end
  end.

End Init.

(* ================================================================== *)
(** ** More objects for the examples *)
(* ================================================================== *)

Module Examples.

(** The class [MechanismOutputState], the default sender of [Mapping], and a
    state and a process as [validate_params] sees them. *)
Definition output_state_class : Projection_Base_params.pyobj :=
  Projection_Base_params.mkObj 1 false false true.
Definition a_state : Projection_Base_params.pyobj :=
  Projection_Base_params.mkObj 2 true false false.
Definition a_process : Projection_Base_params.pyobj :=
  Projection_Base_params.mkObj 3 false true false.
Definition a_string : Projection_Base_params.pyobj :=
  Projection_Base_params.mkObj 4 false false false.

(** The registries of [__init__.py] with the mechanism DDM and the three
    kinds of states. *)
Definition DDM : Init.pyclass := Init.mkClass "DDM" true.
Definition MechanismOutputState : Init.pyclass :=
  Init.mkClass "MechanismOutputState" true.
Definition MechanismRegistry : gmap string Init.pyclass :=
  <["DDM"%string := DDM]> ∅.
Definition MechanismStateRegistry : gmap string Init.pyclass :=
  <["MechanismOutputState"%string := MechanismOutputState]> ∅.

(** A mechanism 0 whose input state is the state 2 and whose output state is
    the state 0 of [Scenario.w]. *)
Definition w_mechanism : Projection.world :=
  Projection.mkWorld (Projection.states Scenario.w)
    (<[0%nat := Projection.mkMechanism 2 0]> ∅).
Definition mapping_of_mechanisms : Projection.t :=
  Projection.mk 7 (Projection.MechanismRef 0) (Projection.MechanismRef 0)
    (Arr1 [I64 0]) (Arr1 [I64 0]) Mapping.default_kwProjectionSenderValue
    Mapping.default_kwExecuteMethodParams None Projection.Unbound.

(** [Mapping(receiver=<state 1>)], the sender left to the class default
    [MechanismOutputState], as the object 9. *)
Definition mapping_by_default : Projection.t :=
  Projection.mk 9 (Projection.ClassRef true) (Projection.StateRef 1)
    (Arr1 [I64 0]) (Arr1 [I64 0]) Mapping.default_kwProjectionSenderValue
    Mapping.default_kwExecuteMethodParams None Projection.Unbound.

(** The world of [Scenario.w] with one more state, 3, whose variable is a
    2-d array of one row and whose value has one element; and
    [Mapping(sender=<state 0>, receiver=<state 3>)] with a filler matrix,
    as the object 8. *)
Definition w_row : Projection.world :=
  Projection.mkWorld
    (<[3%nat := MechanismState.mk false None (Arr1 [I64 0]) (Arr2 [[I64 0; I64 0]]) [] []]>
       (Projection.states Scenario.w))
    ∅.
Definition mapping_filler : Projection.t :=
  Projection.mk 8 (Projection.StateRef 0) (Projection.StateRef 3)
    (Arr1 [I64 1; I64 2]) (Arr1 [I64 0]) Mapping.default_kwProjectionSenderValue
    (Projection.mkParams None (LinearMatrix.Filler (I64 3)) false)
    None Projection.Unbound.



End Examples.

(* ================================================================== *)
(** ** Theorems *)
(* ================================================================== *)

(** *** Numbers *)



(** *** 64-bit integers *)

Lemma wrap_small (z : Z) : Scalar.in_int64 z -> Scalar.wrap z = z.
Proof.
  unfold Scalar.in_int64, Scalar.wrap. intros H.
  rewrite Z.mod_small by lia. lia.
Qed.

Lemma wrap_eq (a b : Z) :
  (a mod 2 ^ 64 = b mod 2 ^ 64)%Z -> Scalar.wrap a = Scalar.wrap b.
Proof.
  intros H. unfold Scalar.wrap.
  rewrite (Z.add_mod a), (Z.add_mod b), H by lia. reflexivity.
Qed.

Lemma wrap_mod (z : Z) : (Scalar.wrap z mod 2 ^ 64 = z mod 2 ^ 64)%Z.
Proof.
  unfold Scalar.wrap.
  rewrite Zminus_mod_idemp_l.
  replace ((z + 2 ^ 63 - 2 ^ 63)%Z) with z by lia. reflexivity.
Qed.

Lemma wrap_add (a b : Z) :
  Scalar.wrap (Scalar.wrap a + Scalar.wrap b) = Scalar.wrap (a + b).
Proof.
  apply wrap_eq.
  rewrite Z.add_mod, !wrap_mod, <- Z.add_mod by lia. reflexivity.
Qed.

Lemma wrap_mul (a b : Z) :
  Scalar.wrap (Scalar.wrap a * Scalar.wrap b) = Scalar.wrap (a * b).
Proof.
  apply wrap_eq.
  rewrite Z.mul_mod, !wrap_mod, <- Z.mul_mod by lia. reflexivity.
Qed.

Lemma wrap_add_l (a b : Z) :
  Scalar.wrap (Scalar.wrap a + b) = Scalar.wrap (a + b).
Proof.
  apply wrap_eq.
  rewrite Z.add_mod, wrap_mod, <- Z.add_mod by lia. reflexivity.
Qed.

Lemma wrap_mul_l (a b : Z) :
  Scalar.wrap (Scalar.wrap a * b) = Scalar.wrap (a * b).
Proof.
  apply wrap_eq.
  rewrite Z.mul_mod, wrap_mod, <- Z.mul_mod by lia. reflexivity.
Qed.

(** The sum and the product of a list of 64-bit integers, as the code
    accumulates them, are the sum and the product of the integers, wrapped
    once. *)
Lemma fold_add_ints (zs : list Z) (a : Z) :
  fold_left Scalar.add (map I64 zs) (I64 (Scalar.wrap a))
  = I64 (Scalar.wrap (a + fold_right Z.add 0%Z zs)).
Proof.
  revert a. induction zs as [|z zs IH]; intros a; simpl.
  - rewrite Z.add_0_r. reflexivity.
  - rewrite wrap_add_l, IH. do 2 f_equal. lia.
Qed.

Lemma fold_mul_ints (zs : list Z) (a : Z) :
  fold_left Scalar.mul (map I64 zs) (I64 (Scalar.wrap a))
  = I64 (Scalar.wrap (a * fold_right Z.mul 1%Z zs)).
Proof.
  revert a. induction zs as [|z zs IH]; intros a; simpl.
  - rewrite Z.mul_1_r. reflexivity.
  - rewrite wrap_mul_l, IH. do 2 f_equal. lia.
Qed.

Lemma total_ints (zs : list Z) :
  Np.total (map I64 zs) = I64 (Scalar.wrap (fold_right Z.add 0%Z zs)).
Proof.
  unfold Np.total. change (I64 0) with (I64 (Scalar.wrap 0)).
  rewrite fold_add_ints. reflexivity.
Qed.

Lemma product_ints (zs : list Z) :
  Np.product (map I64 zs) = I64 (Scalar.wrap (fold_right Z.mul 1%Z zs)).
Proof.
  unfold Np.product. change (I64 1) with (I64 (Scalar.wrap 1)).
  rewrite fold_mul_ints. do 2 f_equal. lia.
Qed.



(** C9. With a weighting that is none of LINEAR, SCALED and TIME_AVERAGED,
    Integrator.execute raises nothing and returns the second element of the
    variable, whatever the first element and the rate are. *)
Theorem Integrator_execute_unknown_weighting :
  forall (old new rate : scalar) (rest : list scalar) (truthy : bool),
    Integrator.execute (old :: new :: rest) rate (Other truthy) = Ok new.
Proof.
  intros old new rate rest truthy. reflexivity.
Qed.

(** *** Lists and broadcasting *)

Lemma lookup_map_Some {A B} (f : A -> B) (l : list A) (j : nat) (x : A) :
  l !! j = Some x -> map f l !! j = Some (f x).
Proof.
  revert j. induction l as [|a l IH]; intros [|j] H; simpl in *; try discriminate.
  - congruence.
  - apply IH, H.
Qed.

Lemma lookup_nth_Some (l : list scalar) (j : nat) :
  (j < length l)%nat -> l !! j = Some (nth j l (I64 0)).
Proof.
  revert j. induction l as [|a l IH]; intros [|j] H; simpl in *; try lia.
  - reflexivity.
  - apply IH. lia.
Qed.

Lemma lookup_zip_with_nth (f : scalar -> scalar -> scalar)
    (u v : list scalar) (j : nat) :
  length u = length v -> (j < length u)%nat ->
  zip_with f u v !! j = Some (f (nth j u (I64 0)) (nth j v (I64 0))).
Proof.
  revert v j. induction u as [|a u IH]; intros [|b v] [|j] Hl Hj;
    simpl in *; try lia; try reflexivity.
  apply IH; lia.
Qed.

Lemma mapM_Forall2 {A B} (f : A -> result B) (l : list A) (l' : list B) :
  mapM f l = Ok l' -> Forall2 (fun x y => f x = Ok y) l l'.
Proof.
  revert l'. induction l as [|x l IH]; intros l' H; simpl in H.
  - inversion H. constructor.
  - destruct (f x) as [y|e] eqn:Hx; [|discriminate].
    destruct (mapM f l) as [ys|e] eqn:Hl; [|discriminate].
    inversion H; subst. constructor; auto.
Qed.

Lemma vec_op_length (f : scalar -> scalar -> scalar) (u v r : list scalar) :
  Np.vec_op f u v = Ok r -> length r = Np.broadcast_length (length u) (length v).
Proof.
  unfold Np.vec_op, Np.broadcast_length.
  destruct (length u =? length v) eqn:E.
  - intros H. inversion H; subst. apply Nat.eqb_eq in E.
    rewrite length_zip_with. lia.
  - destruct u as [|a [|b u]]; simpl.
    + destruct v as [|c [|d v]]; intros H; inversion H; subst;
        simpl in *; try discriminate.
      reflexivity.
    + intros H; inversion H; subst. rewrite length_map. reflexivity.
    + destruct v as [|c [|d v]]; intros H; inversion H; subst.
      simpl. rewrite length_map. reflexivity.
Qed.

Lemma vec_op_same (f : scalar -> scalar -> scalar) (u v : list scalar) :
  length u = length v -> Np.vec_op f u v = Ok (zip_with f u v).
Proof.
  intros H. unfold Np.vec_op. apply Nat.eqb_eq in H. rewrite H. reflexivity.
Qed.

(** Folding an operation over the rows of a 2-d array from a number, as
    [sum] and [reduce] do, folds every column from that number, in the same
    order; no law of the operation is needed. *)
Section FoldRows.
Variable f : scalar -> scalar -> scalar.
Variable e : scalar.

Let step (acc : result ndarray) (x : ndarray) : result ndarray :=
  a <- acc ;; Np.binop f a x.

Lemma fold_rows_from (rows : list (list scalar)) :
  forall (a : list scalar) (k : nat),
    length a = k -> Forall (fun row => length row = k) rows ->
    exists r, fold_left step (map Arr1 rows) (Ok (Arr1 a)) = Ok (Arr1 r)
              /\ length r = k
              /\ forall j, (j < k)%nat ->
                   r !! j = Some (fold_left f (Np.column rows j)
                                    (nth j a (I64 0))).
Proof.
  induction rows as [|row rows IH]; intros a k Ha Hrows.
  - exists a. simpl. repeat split; auto.
    intros j Hj. apply lookup_nth_Some. lia.
  - inversion Hrows as [|? ? Hrow Hrest]; subst.
    simpl. rewrite vec_op_same by congruence. simpl.
    destruct (IH (zip_with f a row) (length a)) as (r & Hr & Hlen & Hj).
    + rewrite length_zip_with. lia.
    + exact Hrest.
    + exists r. repeat split; auto.
      intros j Hlt. rewrite (Hj j Hlt). f_equal. f_equal.
      assert (Hz := lookup_zip_with_nth f a row j (eq_sym Hrow) Hlt).
      rewrite (lookup_nth_Some (zip_with f a row) j) in Hz
        by (rewrite length_zip_with; lia).
      injection Hz as Hz. exact Hz.
Qed.

Lemma fold_rows (rows : list (list scalar)) (k : nat) :
  rows <> [] -> Forall (fun row => length row = k) rows ->
  exists r, fold_left step (map Arr1 rows) (Ok (Num e)) = Ok (Arr1 r)
            /\ length r = k
            /\ forall j, (j < k)%nat ->
                 r !! j = Some (fold_left f (Np.column rows j) e).
Proof.
  destruct rows as [|row rows]; [congruence|]. intros _ Hall.
  inversion Hall as [|? ? Hrow Hrest]; subst.
  simpl.
  destruct (fold_rows_from rows (map (f e) row) (length row))
    as (r & Hr & Hlen & Hj).
  - apply length_map.
  - exact Hrest.
  - exists r. repeat split; auto.
    intros j Hlt. rewrite (Hj j Hlt). f_equal. f_equal.
    assert (Hm := lookup_map_Some (f e) row j _ (lookup_nth_Some row j Hlt)).
    rewrite (lookup_nth_Some (map (f e) row) j) in Hm
      by (rewrite length_map; lia).
    injection Hm as Hm. exact Hm.
Qed.
End FoldRows.

Lemma py_sum_rows (rows : list (list scalar)) (k : nat) :
  rows <> [] -> Forall (fun row => length row = k) rows ->
  exists r, Np.py_sum (map Arr1 rows) = Ok (Arr1 r)
            /\ length r = k
            /\ forall j, (j < k)%nat -> r !! j = Some (Np.total (Np.column rows j)).
Proof.
  intros Hne Hall.
  apply (fold_rows Scalar.add (I64 0)); auto.
Qed.

Lemma reduce_mul_rows (rows : list (list scalar)) (k : nat) :
  rows <> [] -> Forall (fun row => length row = k) rows ->
  exists r, Np.reduce_mul (map Arr1 rows) = Ok (Arr1 r)
            /\ length r = k
            /\ forall j, (j < k)%nat -> r !! j = Some (Np.product (Np.column rows j)).
Proof.
  intros Hne Hall.
  apply (fold_rows Scalar.mul (I64 1)); auto.
Qed.

Lemma apply_weights_unspecified (a : ndarray)
    (weights : Arithmetic.weights_param) :
  Arithmetic.weights_specified weights = false ->
  Arithmetic.apply_weights a weights = Ok a.
Proof.
  destruct weights as [|[|x w]]; simpl; intros H;
    [reflexivity|reflexivity|discriminate].
Qed.

Lemma array_length (l : list scalar) : length (Np.array l) = length l.
Proof.
  unfold Np.array. destruct (existsb Np.is_float l); [|reflexivity].
  apply length_map.
Qed.

(** With as many weights as terms, the block "Apply weights" multiplies
    the variable by the list. *)
Lemma apply_weights_matching (m : list (list scalar)) (w : list scalar) :
  m <> [] -> length w = length m ->
  Arithmetic.apply_weights (Arr2 m) (Arithmetic.WList w)
  = (r <- mapM (fun row => Np.vec_op Scalar.mul row (Np.array w)) m ;;
     Ok (Arr2 r)).
Proof.
  intros Hne Hw. destruct w as [|x w'].
  - destruct m; simpl in Hw; congruence.
  - unfold Arithmetic.apply_weights. cbn [len bind].
    rewrite Hw, Nat.eqb_refl. reflexivity.
Qed.

(** C5, the code on weights that match.  On a 2-d variable of two terms
    or more, with as many weights as terms, Arithmetic.execute raises
    ValueError, whatever the operation, when the terms have a length that is
    neither 1 nor the number of terms: the list of weights multiplies the
    variable along the elements of each term, not along the terms.  Two terms
    of three elements with two weights raise it. *)
Theorem Arithmetic_execute_matching_weights :
  forall (m : list (list scalar)) (k : nat) (w : list scalar)
         (operation : enum_param Arithmetic.Operation)
         (offset scale : scalar),
    m <> [] ->
    Forall (fun row => length row = k) m ->
    length w = length m ->
    k <> length m -> k <> 1%nat -> length m <> 1%nat ->
    Arithmetic.execute (Arr2 m) (Arithmetic.WList w) operation offset scale
    = Raise ValueError.
Proof.
  intros m k w operation offset scale Hne Hm Hw Hk Hk1 Hn1.
  unfold Arithmetic.execute.
  cbn [Np.np_array_less_than_2d ndim Nat.ltb Nat.leb].
  rewrite (apply_weights_matching m w Hne Hw).
  destruct m as [|row m]; [congruence|].
  inversion Hm as [|? ? Hrow _]; subst.
  cbn [mapM]. unfold Np.vec_op at 1.
  assert (Hw' : length (Np.array w) = S (length m)).
  { rewrite array_length. exact Hw. }
  assert (E : (length row =? length (Np.array w)) = false).
  { apply Nat.eqb_neq. rewrite Hw'. exact Hk. }
  rewrite E.
  destruct row as [|a [|b row]]; simpl in Hk1; try congruence;
    destruct (Np.array w) as [|x [|y w0]]; simpl in Hw'; try reflexivity;
    simpl in Hn1; lia.
Qed.

Lemma Arithmetic_execute_matching_weights_witness :
  Arithmetic.execute
    (Arr2 [[I64 1; I64 2; I64 3]; [I64 4; I64 5; I64 6]])
    (Arithmetic.WList [I64 1; I64 1]) (Member Arithmetic.SUM)
    (I64 0) (I64 1)
  = Raise ValueError.
Proof.
  apply (Arithmetic_execute_matching_weights
           [[I64 1; I64 2; I64 3]; [I64 4; I64 5; I64 6]] 3%nat
           [I64 1; I64 1] (Member Arithmetic.SUM) (I64 0) (I64 1)).
  - discriminate.
  - repeat constructor.
  - reflexivity.
  - simpl. lia.
  - lia.
  - simpl. lia.
Defined.

(** A 2-d variable without any term: the sum is Python's 0 and the product
    Python's 1, both plain numbers. *)
Lemma Arithmetic_execute_no_terms (offset scale : scalar) :
  Arithmetic.execute (Arr2 []) Arithmetic.WNotImplemented
    (Member Arithmetic.SUM) offset scale
  = Ok (Num (Scalar.add (Scalar.mul (I64 0) scale) offset))
  /\ Arithmetic.execute (Arr2 []) Arithmetic.WNotImplemented
       (Member Arithmetic.PRODUCT) offset scale = Ok (Num (I64 1)).
Proof.
  split; reflexivity.
Qed.


(** C6, as the claim states it, fails: an empty list of weights has a length
    that differs from the number of terms, and execute raises nothing; it
    returns the unweighted sum. *)
Lemma Arithmetic_execute_empty_weights_accepted :
  length ([] : list scalar) <> length [[I64 2]; [I64 3]; [I64 4]]
  /\ Arithmetic.execute (Arr2 [[I64 2]; [I64 3]; [I64 4]]) (Arithmetic.WList [])
       (Member Arithmetic.SUM) (I64 0) (I64 1)
     = Ok (Arr1 [I64 9]).
Proof.
  split; [discriminate|]. vm_compute. reflexivity.
Qed.

Lemma apply_weights_mismatch (variable : ndarray) (w : list scalar) (n : nat) :
  len variable = Ok n -> w <> [] -> length w <> n ->
  Arithmetic.apply_weights variable (Arithmetic.WList w) = Raise UtilityError.
Proof.
  intros Hn Hw Hlen. destruct w as [|x w]; [congruence|].
  unfold Arithmetic.apply_weights. rewrite Hn. unfold bind.
  destruct (length (x :: w) =? n) eqn:E; [|reflexivity].
  apply Nat.eqb_eq in E. congruence.
Qed.

(** C6, amended. With a list of weights that is not empty and whose length
    differs from the number of terms of the 2-d variable, Arithmetic.execute
    raises UtilityError, whatever the operation; an empty list of weights is
    taken as no weights, as the default NotImplemented is.  Three terms with
    two weights raise the error. *)
Theorem Arithmetic_execute_weights_mismatch :
  (forall (m : list (list scalar)) (w : list scalar)
          (operation : enum_param Arithmetic.Operation)
          (offset scale : scalar),
      w <> [] -> length w <> length m ->
      Arithmetic.execute (Arr2 m) (Arithmetic.WList w) operation offset scale
      = Raise UtilityError)
  /\ (forall (m : list (list scalar))
             (operation : enum_param Arithmetic.Operation)
             (offset scale : scalar),
      Arithmetic.execute (Arr2 m) (Arithmetic.WList []) operation offset scale
      = Arithmetic.execute (Arr2 m) Arithmetic.WNotImplemented operation
                           offset scale)
  /\ Arithmetic.execute (Arr2 [[I64 2]; [I64 3]; [I64 4]])
       (Arithmetic.WList [I64 1; I64 0]) (Member Arithmetic.SUM)
       (I64 0) (I64 1)
     = Raise UtilityError.
Proof.
  split; [|split].
  - intros m w operation offset scale Hw Hlen.
    unfold Arithmetic.execute.
    change (Np.np_array_less_than_2d (Arr2 m)) with false. cbv iota.
    rewrite (apply_weights_mismatch (Arr2 m) w (length m)); auto.
  - intros. reflexivity.
  - reflexivity.
Qed.

Lemma Arithmetic_execute_weights_mismatch_witness :
  Arithmetic.execute (Arr2 [[I64 2]; [I64 3]; [I64 4]])
    (Arithmetic.WList [I64 1; I64 0]) (Member Arithmetic.PRODUCT)
    (I64 5) (I64 3)
  = Raise UtilityError.
Proof.
  apply (proj1 Arithmetic_execute_weights_mismatch); simpl; [discriminate|lia].
Defined.

(** What the code does with the weights [1, 0, 1] on the terms [2], [3], [4]:
    the list multiplies the columns of the broadcast variable, not the terms,
    and the sum is [9, 0, 9]. *)
Lemma Arithmetic_execute_weights_by_column :
  Arithmetic.execute (Arr2 [[I64 2]; [I64 3]; [I64 4]])
    (Arithmetic.WList [I64 1; I64 0; I64 1]) (Member Arithmetic.SUM)
    (I64 0) (I64 1)
  = Ok (Arr1 [I64 9; I64 0; I64 9]).
Proof.
  vm_compute. reflexivity.
Qed.

(** With validation of the parameters, a list of weights that is not empty
    does not get past [validate_params]. *)
Lemma Arithmetic_validate_params_weights (w : list scalar)
    (operation : enum_param Arithmetic.Operation) :
  w <> [] ->
  Arithmetic.validate_params (Arithmetic.WList w) operation = Raise AttributeError.
Proof.
  destruct w; [congruence|]. reflexivity.
Qed.

(** C3, the code at the failing input.  On a function with output conversion
    enabled and the two-element variable [7, 8], assigning RAW_NUMBER to
    functionOutputType raises nothing and stores the mode: the setter tests
    the mode in force, which is still None.  The next execute raises nothing
    either and returns the two numbers.  UtilityError comes with the next
    assignment, whatever is assigned. *)
Theorem set_RAW_NUMBER_with_two_elements :
  len (Utility_Base.variable Scenario.linear_7_8) = Ok 2%nat
  /\ Utility_Base.set_functionOutputType Scenario.linear_7_8
       (Utility_Base.OutputType Utility_Base.RAW_NUMBER)
     = Ok Scenario.linear_7_8_raw
  /\ Linear.execute Scenario.linear_7_8_raw (I64 1) (I64 0)
     = Ok (Arr1 [I64 7; I64 8])
  /\ Utility_Base.set_functionOutputType Scenario.linear_7_8_raw
       Utility_Base.PyNone
     = Raise UtilityError.
Proof.
  split; [reflexivity|]. split; [reflexivity|]. split; [|reflexivity].
  vm_compute. reflexivity.
Qed.

(** The setter accepts RAW_NUMBER whenever the mode in force is not
    RAW_NUMBER, however long the variable is. *)
Lemma set_RAW_NUMBER_accepted (self : Utility_Base.t) (n : nat) :
  len (Utility_Base.variable self) = Ok n ->
  Utility_Base.is_RAW_NUMBER (Utility_Base.functionOutputType self) = false ->
  Utility_Base.set_functionOutputType self
    (Utility_Base.OutputType Utility_Base.RAW_NUMBER)
  = Ok (Utility_Base.mk (Utility_Base.variable self)
          (Utility_Base.conversion_enabled self)
          (Utility_Base.OutputType Utility_Base.RAW_NUMBER)).
Proof.
  intros Hlen Hmode. unfold Utility_Base.set_functionOutputType.
  simpl. rewrite Hlen. simpl. rewrite Hmode, andb_false_r. reflexivity.
Qed.

(** *** LinearMatrix *)

(** A matrix whose number of rows differs from the length of the sender, or
    whose number of columns differs from the length of the declared receiver
    (of the sender when none is declared), is refused by [validate_params],
    and so by the constructor. *)
Lemma LinearMatrix_validate_params_mismatch
    (sender : list scalar) (declared : option (list scalar))
    (rows : list (list scalar))
    (spec : LinearMatrix.matrix_spec) (unrecognized : bool) :
  spec = LinearMatrix.MatrixList rows \/ spec = LinearMatrix.MatrixNp rows ->
  (Np.matrix_shape rows).1 <> length sender
  \/ (Np.matrix_shape rows).2 <> length (default sender declared) ->
  LinearMatrix.validate_params sender declared spec unrecognized
  = Raise UtilityError
  /\ LinearMatrix.init (Arr1 sender) declared spec unrecognized
     = Raise UtilityError.
Proof.
  intros Hspec Hshape.
  assert (H : LinearMatrix.validate_params sender declared spec unrecognized
              = Raise UtilityError).
  { unfold LinearMatrix.validate_params, LinearMatrix.validate_matrix.
    destruct Hspec as [-> | ->];
      (destruct ((Np.matrix_shape rows).1 =? length sender) eqn:E1; simpl;
       [|reflexivity];
       destruct ((Np.matrix_shape rows).2 =? length (default sender declared))
         eqn:E2;
       [apply Nat.eqb_eq in E1, E2; destruct Hshape; congruence|];
       destruct declared; simpl in *; rewrite E2; reflexivity). }
  split; [exact H|].
  unfold LinearMatrix.init. simpl. rewrite H. reflexivity.
Qed.

(** C7, the code at the failing inputs.  A 2x2 matrix given as a list of
    rows, for a sender of length 2 and no declared receiver, has as many rows
    as the sender is long and as many columns as the receiver is long;
    [validate_params] accepts it, and the constructor raises UtilityError in
    [implement_matrix], which returns only an [np.matrix].  A 2x3 [np.matrix]
    for a sender of length 2 and a declared receiver of length 3 is accepted
    by [validate_params] too, and the constructor raises UtilityError in the
    hook that implements the identity matrix first. *)
Theorem LinearMatrix_init_matching_matrix_fails :
  Np.matrix_shape Scenario.square_2x2
  = (length Scenario.sender_2, length Scenario.sender_2)
  /\ LinearMatrix.validate_params Scenario.sender_2 None
       (LinearMatrix.MatrixList Scenario.square_2x2) false
     = Ok (Scenario.sender_2, Scenario.sender_2)
  /\ LinearMatrix.init (Arr1 Scenario.sender_2) None
       (LinearMatrix.MatrixList Scenario.square_2x2) false
     = Raise UtilityError
  /\ Np.matrix_shape Scenario.wide_2x3
     = (length Scenario.sender_2, length Scenario.receiver_3)
  /\ LinearMatrix.validate_params Scenario.sender_2 (Some Scenario.receiver_3)
       (LinearMatrix.MatrixNp Scenario.wide_2x3) false
     = Ok (Scenario.receiver_3, Scenario.receiver_3)
  /\ LinearMatrix.init (Arr1 Scenario.sender_2) (Some Scenario.receiver_3)
       (LinearMatrix.MatrixNp Scenario.wide_2x3) false
     = Raise UtilityError.
Proof.
  repeat split; reflexivity.
Qed.

(** A square [np.matrix] that fits the sender is what the constructor
    accepts. *)
Lemma LinearMatrix_init_square_np_matrix :
  is_ok (LinearMatrix.init (Arr1 [I64 0; I64 0]) None
           (LinearMatrix.MatrixNp [[I64 1; I64 0]; [I64 0; I64 1]]) false)
  = true.
Proof. reflexivity. Qed.

(** *** Multiplying by 1.0 and by 0.0, and adding a zero *)











(** *** The identity matrix *)


Lemma identity_shape (n : nat) :
  length (Np.identity n) = n /\ (Np.matrix_shape (Np.identity n)).2 = n.
Proof.
  unfold Np.identity. split; [rewrite length_map, length_seq; reflexivity|].
  destruct n as [|n]; [reflexivity|].
  simpl. rewrite length_map, length_seq. reflexivity.
Qed.

(** [np.dot(v, np.identity(len(v)))] returns an array as long as [v]. *)
Lemma dot_identity_length (v : list scalar) :
  exists r, Np.dot v (Np.identity (length v)) = Ok r /\ length r = length v.
Proof.
  unfold Np.dot. destruct (identity_shape (length v)) as [Hlen Hcols].
  rewrite Hlen, Nat.eqb_refl, Hcols. eexists. split; [reflexivity|].
  rewrite length_map, length_seq. reflexivity.
Qed.







(** *** The wiring and the shared objects *)

Section Wiring.
Import Projection.

Ltac unfold_M :=
  unfold bindM, ret, raise, lift, get_state, get_mechanism, put_state,
    new_output_state in *.

(** [instantiate_execute_method] reads the world and writes nothing. *)
Lemma Projection_Base_instantiate_execute_method_world (self : t) (w : world) :
  (Projection_Base.instantiate_execute_method self w).2 = w.
Proof.
  unfold Projection_Base.instantiate_execute_method. unfold_M.
  repeat case_match; simplify_eq/=; reflexivity.
Qed.

Lemma Mapping_instantiate_execute_method_world (self : t) (w : world) :
  (Mapping.instantiate_execute_method self w).2 = w.
Proof.
  unfold Mapping.instantiate_execute_method. unfold bindM at 1.
  pose proof (Projection_Base_instantiate_execute_method_world self w) as H.
  destruct (Projection_Base.instantiate_execute_method self w) as [[p|e] w1];
    simpl in H; subst w1; [|reflexivity].
  unfold_M. repeat case_match; simplify_eq/=; reflexivity.
Qed.

(** [instantiate_receiver]: a failure writes nothing; a success appends
    the projection to the list of the receiver and touches nothing else. *)
Lemma instantiate_receiver_raise (self : t) (w w' : world) (e : exn) :
  Projection_Base.instantiate_receiver self w = (Raise e, w') -> w' = w.
Proof.
  unfold Projection_Base.instantiate_receiver. unfold_M.
  intros H. repeat case_match; simplify_eq/=; reflexivity.
Qed.

Lemma instantiate_receiver_ok (self self' : t) (w w' : world) :
  Projection_Base.instantiate_receiver self w = (Ok self', w') ->
  exists r,
    receiver self' = StateRef r
    /\ sender self' = sender self
    /\ self_id self' = self_id self
    /\ receives w' r = receives w r ++ [self_id self]
    /\ (forall x, x <> r -> receives w' x = receives w x)
    /\ (forall x, sends w' x = sends w x).
Proof.
  destruct self as [id snd rcv var val ksv kp own ex].
  unfold Projection_Base.instantiate_receiver. unfold_M. simpl.
  intros H.
  assert (Hgoal : forall r st,
             states w !! r = Some st ->
             w' = mkWorld (<[r := MechanismState.append_receivesFrom st id]> (states w))
                          (mechanisms w) ->
             receives w' r = receives w r ++ [id]
             /\ (forall x, x <> r -> receives w' x = receives w x)
             /\ (forall x, sends w' x = sends w x)).
  { intros r st Hst ->. unfold receives, sends. simpl.
    rewrite lookup_insert_eq, Hst. simpl. split; [reflexivity|]. split.
    - intros x Hx. by rewrite lookup_insert_ne.
    - intros x. destruct (decide (r = x)) as [->|Hx].
      + by rewrite lookup_insert_eq, Hst.
      + by rewrite lookup_insert_ne. }
  destruct rcv as [| |m|r]; simpl in H; try discriminate.
  - destruct (mechanisms w !! m) as [mech|]; simpl in H; [|discriminate].
    destruct (states w !! inputState mech) as [st|] eqn:Hst; simpl in H;
      [|discriminate].
    inversion H; subst. exists (inputState mech). simpl.
    destruct (Hgoal _ _ Hst eq_refl) as (? & ? & ?). repeat split; auto.
  - destruct (states w !! r) as [st|] eqn:Hst; simpl in H; [|discriminate].
    inversion H; subst. exists r. simpl.
    destruct (Hgoal _ _ Hst eq_refl) as (? & ? & ?). repeat split; auto.
Qed.

(** [Projection_Base.instantiate_sender]: a failure writes nothing; a
    success appends the projection to the list of the sender, which may be
    a new state, and touches no list else. *)
Lemma Projection_Base_instantiate_sender_raise (self : t) (w w' : world) (e : exn) :
  Projection_Base.instantiate_sender self w = (Raise e, w') -> w' = w.
Proof.
  destruct self as [id snd rcv var val ksv kp own ex].
  unfold Projection_Base.instantiate_sender, Projection_Base.assign_defaults.
  unfold_M. simpl. intros H.
  destruct snd as [|[|]|m|s]; simpl in H.
  - by inversion H.
  - rewrite lookup_insert_eq in H. simpl in H.
    destruct (Main.iscompatible _ _); discriminate.
  - by inversion H.
  - destruct (mechanisms w !! m) as [mech|]; simpl in H; [|by inversion H].
    destruct (states w !! outputState mech) as [st|]; simpl in H;
      [|by inversion H].
    destruct (MechanismState.is_MechanismOutputState st); simpl in H; [|by inversion H].
    destruct (Main.iscompatible _ _); discriminate.
  - destruct (states w !! s) as [st|]; simpl in H; [|by inversion H].
    destruct (MechanismState.is_MechanismOutputState st); simpl in H; [|by inversion H].
    destruct (Main.iscompatible _ _); discriminate.
Qed.

Lemma Projection_Base_instantiate_sender_ok (self self' : t) (w w' : world) :
  Projection_Base.instantiate_sender self w = (Ok self', w') ->
  exists s,
    sender self' = StateRef s
    /\ receiver self' = receiver self
    /\ self_id self' = self_id self
    /\ sends w' s = sends w s ++ [self_id self]
    /\ (forall x, x <> s -> sends w' x = sends w x)
    /\ (forall x, receives w' x = receives w x).
Proof.
  destruct self as [id snd rcv var val ksv kp own ex].
  unfold Projection_Base.instantiate_sender, Projection_Base.assign_defaults.
  unfold_M. simpl. intros H.
  assert (Hgoal : forall s st,
             states w !! s = Some st ->
             w' = mkWorld (<[s := MechanismState.append_sendsTo st id]> (states w))
                          (mechanisms w) ->
             sends w' s = sends w s ++ [id]
             /\ (forall x, x <> s -> sends w' x = sends w x)
             /\ (forall x, receives w' x = receives w x)).
  { intros s st Hst ->. unfold receives, sends. simpl.
    rewrite lookup_insert_eq, Hst. simpl. split; [reflexivity|]. split.
    - intros x Hx. by rewrite lookup_insert_ne.
    - intros x. destruct (decide (s = x)) as [->|Hx].
      + by rewrite lookup_insert_eq, Hst.
      + by rewrite lookup_insert_ne. }
  destruct snd as [|[|]|m|s]; simpl in H; try discriminate.
  - rewrite lookup_insert_eq in H. simpl in H.
    set (s := fresh (dom (states w))) in *.
    assert (Hs : states w !! s = None).
    { apply not_elem_of_dom. apply is_fresh. }
    exists s.
    assert (Hw : w' = mkWorld (<[s := MechanismState.mk true None ksv ksv [id] []]>
                                 (states w)) (mechanisms w)).
    { destruct (Main.iscompatible _ _); inversion H; simpl;
        by rewrite insert_insert_eq. }
    assert (Hself : sender self' = StateRef s /\ receiver self' = rcv
                    /\ self_id self' = id).
    { destruct (Main.iscompatible _ _); inversion H; simpl; auto. }
    destruct Hself as (? & ? & ?). simpl.
    repeat split; auto; subst w'; unfold sends, receives; simpl.
    + by rewrite lookup_insert_eq, Hs.
    + intros x Hx. by rewrite lookup_insert_ne.
    + intros x. destruct (decide (s = x)) as [<-|Hx].
      * by rewrite lookup_insert_eq, Hs.
      * by rewrite lookup_insert_ne.
  - destruct (mechanisms w !! m) as [mech|]; simpl in H; [|discriminate].
    destruct (states w !! outputState mech) as [st|] eqn:Hst; simpl in H;
      [|discriminate].
    destruct (MechanismState.is_MechanismOutputState st); simpl in H; [|discriminate].
    exists (outputState mech).
    destruct (Main.iscompatible _ _); inversion H; subst; simpl;
      destruct (Hgoal _ _ Hst eq_refl) as (? & ? & ?); repeat split; auto.
  - destruct (states w !! s) as [st|] eqn:Hst; simpl in H; [|discriminate].
    destruct (MechanismState.is_MechanismOutputState st); simpl in H; [|discriminate].
    exists s.
    destruct (Main.iscompatible _ _); inversion H; subst; simpl;
      destruct (Hgoal _ _ Hst eq_refl) as (? & ? & ?); repeat split; auto.
Qed.

(** [Mapping.instantiate_sender] is the method of the base class behind a
    guard that writes nothing. *)
Lemma Mapping_instantiate_sender_cases (self : t) (w : world) :
  (exists e, Mapping.instantiate_sender self w = (Raise e, w)
             /\ (e = ProjectionError \/ e = ReferenceError))
  \/ Mapping.instantiate_sender self w
     = Projection_Base.instantiate_sender self w.
Proof.
  unfold Mapping.instantiate_sender. unfold bindM at 1. unfold_M.
  destruct (sender self) as [| |m|s]; try (right; reflexivity).
  destruct (states w !! s) as [st|]; [|left; eauto].
  destruct (MechanismState.process_input st) as [names|]; [|right; reflexivity].
  destruct (1 <? length names); [left; eauto|right; reflexivity].
Qed.

Lemma Mapping_instantiate_sender_raise (self : t) (w w' : world) (e : exn) :
  Mapping.instantiate_sender self w = (Raise e, w') -> w' = w.
Proof.
  destruct (Mapping_instantiate_sender_cases self w) as [(e' & -> & _)| ->].
  - intros H. by inversion H.
  - apply Projection_Base_instantiate_sender_raise.
Qed.

Lemma Mapping_instantiate_sender_ok (self self' : t) (w w' : world) :
  Mapping.instantiate_sender self w = (Ok self', w') ->
  Projection_Base.instantiate_sender self w = (Ok self', w').
Proof.
  destruct (Mapping_instantiate_sender_cases self w) as [(e' & -> & _)| ->].
  - discriminate.
  - auto.
Qed.

End Wiring.

(** C1, as the claim states it, fails.  A Mapping from an output state of
    length 2 to an input state of length 3 is refused with ProjectionError in
    instantiate_execute_method; before the call neither list holds a
    projection, after it the projection is in the sender's
    sendsToProjections and in the receiver's receivesFromProjections. *)
Lemma Mapping_init_failure_keeps_registration :
  Scenario.refused.1 = Raise ProjectionError
  /\ Projection.sends Scenario.w 0 = []
  /\ Projection.receives Scenario.w 1 = []
  /\ Projection.sends Scenario.refused.2 0 = [7%nat]
  /\ Projection.receives Scenario.refused.2 1 = [7%nat].
Proof.
  repeat split; vm_compute; reflexivity.
Qed.

(** C1, amended.  When the construction of a Mapping fails, the lists are
    as the stage that failed found them, since nothing is taken back:
    a failure in instantiate_sender leaves the world as it was; a failure in
    instantiate_receiver leaves the projection at the end of the sender's
    sendsToProjections and the receivesFromProjections of every state as
    they were; a failure in instantiate_execute_method leaves the projection
    at the end of the sender's sendsToProjections and at the end of the
    receiver's receivesFromProjections. *)
Theorem Mapping_init_failure :
  forall (self : Projection.t) (w w' : Projection.world) (e : exn),
    Mapping.init self w = (Raise e, w') ->
    (Mapping.instantiate_sender self w = (Raise e, w) /\ w' = w)
    \/ (exists self1 s,
          Mapping.instantiate_sender self w = (Ok self1, w')
          /\ Projection_Base.instantiate_receiver self1 w' = (Raise e, w')
          /\ Projection.sender self1 = Projection.StateRef s
          /\ Projection.sends w' s
             = Projection.sends w s ++ [Projection.self_id self]
          /\ forall x, Projection.receives w' x = Projection.receives w x)
    \/ (exists self1 self2 w1 s r,
          Mapping.instantiate_sender self w = (Ok self1, w1)
          /\ Projection_Base.instantiate_receiver self1 w1 = (Ok self2, w')
          /\ Mapping.instantiate_execute_method self2 w' = (Raise e, w')
          /\ Projection.sender self2 = Projection.StateRef s
          /\ Projection.receiver self2 = Projection.StateRef r
          /\ Projection.sends w' s
             = Projection.sends w s ++ [Projection.self_id self]
          /\ Projection.receives w' r
             = Projection.receives w r ++ [Projection.self_id self]).
Proof.
  intros self w w' e H.
  unfold Mapping.init,
    Projection_Base.instantiate_attributes_before_execute_method in H.
  unfold Projection.bindM in H.
  destruct (Mapping.instantiate_sender self w) as [[self1|e1] w1] eqn:Hs.
  - pose proof (Mapping_instantiate_sender_ok _ _ _ _ Hs) as Hb.
    apply Projection_Base_instantiate_sender_ok in Hb
      as (s & Hsnd & Hrcv & Hid & Hsends & Hothers & Hrecv).
    destruct (Projection_Base.instantiate_receiver self1 w1)
      as [[self2|e2] w2] eqn:Hr.
    + right. right.
      pose proof (Mapping_instantiate_execute_method_world self2 w2) as Hw.
      rewrite H in Hw. simpl in Hw. subst w2.
      apply instantiate_receiver_ok in Hr as Hr'.
      destruct Hr' as (r & Hrcv2 & Hsnd2 & Hid2 & Hrecv2 & Hothers2 & Hsends2).
      exists self1, self2, w1, s, r.
      repeat split; auto.
      * congruence.
      * rewrite Hsends2. exact Hsends.
      * rewrite Hrecv2, Hrecv, Hid. reflexivity.
    + right. left.
      pose proof (instantiate_receiver_raise _ _ _ _ Hr). subst w2.
      inversion H; subst. exists self1, s. repeat split; auto.
  - left. pose proof (Mapping_instantiate_sender_raise _ _ _ _ Hs). subst w1.
    inversion H; subst. auto.
Qed.

Lemma Mapping_init_failure_witness :
  (Mapping.instantiate_sender (Scenario.mapping 1) Scenario.w
   = (Raise ProjectionError, Scenario.w)
   /\ Scenario.refused.2 = Scenario.w)
  \/ (exists self1 s,
        Mapping.instantiate_sender (Scenario.mapping 1) Scenario.w
        = (Ok self1, Scenario.refused.2)
        /\ Projection_Base.instantiate_receiver self1 Scenario.refused.2
           = (Raise ProjectionError, Scenario.refused.2)
        /\ Projection.sender self1 = Projection.StateRef s
        /\ Projection.sends Scenario.refused.2 s
           = Projection.sends Scenario.w s
               ++ [Projection.self_id (Scenario.mapping 1)]
        /\ forall x, Projection.receives Scenario.refused.2 x
                     = Projection.receives Scenario.w x)
  \/ (exists self1 self2 w1 s r,
        Mapping.instantiate_sender (Scenario.mapping 1) Scenario.w
        = (Ok self1, w1)
        /\ Projection_Base.instantiate_receiver self1 w1
           = (Ok self2, Scenario.refused.2)
        /\ Mapping.instantiate_execute_method self2 Scenario.refused.2
           = (Raise ProjectionError, Scenario.refused.2)
        /\ Projection.sender self2 = Projection.StateRef s
        /\ Projection.receiver self2 = Projection.StateRef r
        /\ Projection.sends Scenario.refused.2 s
           = Projection.sends Scenario.w s
               ++ [Projection.self_id (Scenario.mapping 1)]
        /\ Projection.receives Scenario.refused.2 r
           = Projection.receives Scenario.w r
               ++ [Projection.self_id (Scenario.mapping 1)]).
Proof.
  apply (Mapping_init_failure (Scenario.mapping 1) Scenario.w
           Scenario.refused.2 ProjectionError).
  vm_compute. reflexivity.
Defined.

(** *** Wiring between two states *)





(** The whole construction from the input of a process to the first
    mechanism of its configuration succeeds. *)
Lemma Mapping_init_process_input_first :
  is_ok (Mapping.init (Scenario.mapping 1)
           (Scenario.process_world ["A"]%string)).1 = true.
Proof. vm_compute. reflexivity. Qed.





(* ================================================================== *)
(** ** Further properties of the code *)
(* ================================================================== *)

(** *** Integrator *)

(** X1. On 64-bit integers, with an integer rate, TIME_AVERAGED returns
    the old value at the rate 0 and the new value at the rate 1, as the
    docstring says; equal old and new values are returned at every rate; and
    the result is the SCALED update of the old value by the difference
    new - old. *)
Theorem Integrator_time_averaged_endpoints :
  forall (old new rate : Z) (rest : list Z),
    Scalar.in_int64 old -> Scalar.in_int64 new ->
    Scalar.in_int64 rate -> Scalar.in_int64 (1 - rate) ->
    Integrator.execute (I64 old :: I64 new :: map I64 rest) (I64 0)
      (Member Integrator.TIME_AVERAGED)
    = Ok (I64 old)
    /\ Integrator.execute (I64 old :: I64 new :: map I64 rest) (I64 1)
         (Member Integrator.TIME_AVERAGED)
       = Ok (I64 new)
    /\ Integrator.execute (I64 old :: I64 old :: map I64 rest) (I64 rate)
         (Member Integrator.TIME_AVERAGED)
       = Ok (I64 old)
    /\ Integrator.execute (I64 old :: I64 new :: map I64 rest) (I64 rate)
         (Member Integrator.TIME_AVERAGED)
       = Integrator.execute
           (I64 old :: I64 (Scalar.wrap (new - old)) :: map I64 rest)
           (I64 rate) (Member Integrator.SCALED).
Proof.
  intros old new rate rest Hold Hnew _ _.
  unfold Integrator.execute. cbn -[Z.add Z.mul Z.sub Scalar.wrap].
  assert (Hadd_r : forall a b : Z,
             Scalar.wrap (a + Scalar.wrap b) = Scalar.wrap (a + b)).
  { intros a b. rewrite Z.add_comm, wrap_add_l. f_equal. lia. }
  split; [|split; [|split]]; do 2 f_equal.
  - rewrite wrap_add. rewrite <- (wrap_small old Hold) at 2. f_equal. lia.
  - rewrite wrap_add. rewrite <- (wrap_small new Hnew) at 2. f_equal. lia.
  - rewrite wrap_add. rewrite <- (wrap_small old Hold) at 3. f_equal. lia.
  - rewrite wrap_add, wrap_mul_l, Hadd_r. f_equal. lia.
Qed.

Lemma Integrator_time_averaged_endpoints_witness :
  Integrator.execute [I64 10; I64 4] (I64 0)
    (Member Integrator.TIME_AVERAGED) = Ok (I64 10)
  /\ Integrator.execute [I64 10; I64 4] (I64 1)
       (Member Integrator.TIME_AVERAGED) = Ok (I64 4).
Proof.
  destruct (Integrator_time_averaged_endpoints 10 4 3 [])
    as (H0 & H1 & _); try (unfold Scalar.in_int64; lia).
  split; [exact H0|exact H1].
Defined.

(** X2. On a variable with fewer than two elements Integrator.execute
    raises IndexError, whatever the rate and the weighting are. *)
Theorem Integrator_execute_short_variable :
  forall (values : list scalar) (rate : scalar)
         (weighting : enum_param Integrator.Weightings),
    (length values < 2)%nat ->
    Integrator.execute values rate weighting = Raise IndexError.
Proof.
  intros values rate weighting Hlen.
  destruct values as [|x [|y values]]; simpl in Hlen; try lia; reflexivity.
Qed.

Lemma Integrator_execute_short_variable_witness :
  Integrator.execute [I64 3] (I64 1) (Member Integrator.LINEAR)
  = Raise IndexError.
Proof.
  apply (Integrator_execute_short_variable [I64 3] (I64 1)
           (Member Integrator.LINEAR)).
  simpl. lia.
Defined.

(** *** Contradiction *)

Lemma ltb_lt (x y : Qc) : Contradiction.ltb x y = true <-> x < y.
Proof.
  unfold Contradiction.ltb. rewrite Qclt_alt.
  destruct (x ?= y); split; congruence.
Qed.

Lemma leb_le (x y : Qc) : Contradiction.leb x y = true <-> x <= y.
Proof.
  unfold Contradiction.leb. rewrite Qcle_alt.
  destruct (x ?= y); split; congruence.
Qed.

Lemma int_lt (a b : Z) : int a < int b <-> (a < b)%Z.
Proof.
  unfold Qclt, int, frac, Q2Qc. simpl. rewrite !Qred_correct.
  unfold Qlt. simpl. lia.
Qed.

(** X4. For every pertinacity and every number drawn, the OBSEQUIOUS and
    the CONTRARIAN answers are never both True, and they are both False
    exactly when the number drawn is the pertinacity. *)
Theorem Contradiction_answers_exclusive :
  forall (pertinacity : Qc) (whim : Z),
    exists a b : bool,
      Contradiction.execute (Member Contradiction.OBSEQUIOUS) pertinacity whim
      = Ok a
      /\ Contradiction.execute (Member Contradiction.CONTRARIAN) pertinacity whim
         = Ok b
      /\ a && b = false
      /\ (a || b = false <-> int whim = pertinacity).
Proof.
  intros p whim. eexists. eexists.
  split; [reflexivity|]. split; [reflexivity|].
  unfold Contradiction.ltb.
  pose proof (Qcompare_antisym (int whim) p) as Hanti.
  change (Qcompare (int whim) p) with (int whim ?= p) in Hanti.
  change (Qcompare p (int whim)) with (p ?= int whim) in Hanti.
  destruct (int whim ?= p) eqn:E; simpl in Hanti; rewrite <- Hanti; simpl.
  - split; [reflexivity|]. split; [intros _|reflexivity].
    apply Qc_is_canon. apply Qeq_alt. exact E.
  - split; [reflexivity|]. split; [discriminate|].
    intros Heq. apply Qclt_alt, Qclt_not_eq in E. contradiction.
  - split; [reflexivity|]. split; [discriminate|].
    intros Heq. apply Qcgt_alt, Qclt_not_eq in E. congruence.
Qed.

(** X5. With the defaults of the class (CONTRARIAN, pertinacity 10),
    Contradiction.execute returns False for every number that
    randint(-10, 10) can draw; and a pertinacity that validate_params accepts
    lies between 0 and 10. *)
Theorem Contradiction_defaults_always_False :
  (forall whim : Z,
      (-10 <= whim <= 10)%Z ->
      Contradiction.execute Contradiction.default_propensity
        Contradiction.default_pertinacity whim = Ok false)
  /\ (forall (propensity : option (enum_param Contradiction.Manner)) (q : Qc),
         Contradiction.validate_params propensity
           (Some (Contradiction.Number q)) = Ok tt ->
         0 <= q /\ q <= int 10).
Proof.
  split.
  - intros whim [_ Hhi]. unfold Contradiction.execute. cbn. f_equal.
    destruct (Contradiction.ltb Contradiction.default_pertinacity (int whim))
      eqn:E; [|reflexivity].
    apply ltb_lt in E. unfold Contradiction.default_pertinacity in E.
    apply (proj1 (int_lt 10 whim)) in E. lia.
  - intros propensity q H. unfold Contradiction.validate_params in H.
    destruct (Contradiction.leb 0 q) eqn:E1;
      destruct (Contradiction.leb q (int 10)) eqn:E2;
      try (rewrite ?andb_false_r in H; simpl in H; discriminate).
    split; apply leb_le; assumption.
Qed.

Lemma Contradiction_defaults_always_False_witness :
  Contradiction.execute Contradiction.default_propensity
    Contradiction.default_pertinacity 10 = Ok false
  /\ (0 <= int 3 /\ int 3 <= int 10).
Proof.
  split.
  - apply (proj1 Contradiction_defaults_always_False 10%Z). lia.
  - apply (proj2 Contradiction_defaults_always_False None (int 3)).
    reflexivity.
Defined.

(** *** The output-type conversion mode *)

(** X6. An assignment to functionOutputType that succeeds leaves the
    variable and the conversion switch as they were; reading the property
    back gives the value assigned when conversion is enabled, and None when
    it is not; and a value that was accepted and is true is a member of
    UtilityFunctionOutputType on a function with conversion enabled. *)
Theorem functionOutputType_set_then_get :
  forall (self self' : Utility_Base.t) (value : Utility_Base.mode),
    Utility_Base.set_functionOutputType self value = Ok self' ->
    Utility_Base.variable self' = Utility_Base.variable self
    /\ Utility_Base.conversion_enabled self'
       = Utility_Base.conversion_enabled self
    /\ Utility_Base.functionOutputType self'
       = (if Utility_Base.conversion_enabled self then value
          else Utility_Base.PyNone)
    /\ (Utility_Base.mode_truthy value = true ->
        Utility_Base.conversion_enabled self = true
        /\ Utility_Base.is_output_type value = true).
Proof.
  intros self self' value H.
  unfold Utility_Base.set_functionOutputType in H.
  destruct (Utility_Base.mode_truthy value) eqn:Ht;
    destruct (Utility_Base.conversion_enabled self) eqn:Hc;
    destruct (Utility_Base.is_output_type value) eqn:Ho;
    simpl in H; try discriminate;
    destruct (len (Utility_Base.variable self)) as [n|]; simpl in H;
    try discriminate;
    destruct (_ && _) in H; try discriminate;
    inversion H; subst; unfold Utility_Base.functionOutputType; simpl;
    repeat split; auto; discriminate.
Qed.

Lemma functionOutputType_set_then_get_witness :
  Utility_Base.variable Scenario.linear_7_8_raw
  = Utility_Base.variable Scenario.linear_7_8
  /\ Utility_Base.conversion_enabled Scenario.linear_7_8_raw
     = Utility_Base.conversion_enabled Scenario.linear_7_8
  /\ Utility_Base.functionOutputType Scenario.linear_7_8_raw
     = (if Utility_Base.conversion_enabled Scenario.linear_7_8
        then Utility_Base.OutputType Utility_Base.RAW_NUMBER
        else Utility_Base.PyNone)
  /\ (Utility_Base.mode_truthy (Utility_Base.OutputType Utility_Base.RAW_NUMBER)
      = true ->
      Utility_Base.conversion_enabled Scenario.linear_7_8 = true
      /\ Utility_Base.is_output_type
           (Utility_Base.OutputType Utility_Base.RAW_NUMBER) = true).
Proof.
  apply (functionOutputType_set_then_get Scenario.linear_7_8
           Scenario.linear_7_8_raw
           (Utility_Base.OutputType Utility_Base.RAW_NUMBER)).
  reflexivity.
Defined.

(** X7. Once RAW_NUMBER is the mode of a function with conversion enabled
    and a variable of more than one element, every later assignment to
    functionOutputType raises UtilityError, whatever is assigned: the mode
    cannot be changed any more. *)
Theorem functionOutputType_RAW_NUMBER_is_final :
  forall (self : Utility_Base.t) (n : nat) (value : Utility_Base.mode),
    Utility_Base.conversion_enabled self = true ->
    Utility_Base._functionOutputType self
    = Utility_Base.OutputType Utility_Base.RAW_NUMBER ->
    len (Utility_Base.variable self) = Ok n ->
    (1 < n)%nat ->
    Utility_Base.set_functionOutputType self value = Raise UtilityError.
Proof.
  intros self n value Hc Hm Hlen Hn.
  unfold Utility_Base.set_functionOutputType, Utility_Base.functionOutputType.
  rewrite Hc, Hm, Hlen. simpl.
  replace (1 <? n) with true by (symmetry; apply Nat.ltb_lt; exact Hn).
  destruct (Utility_Base.mode_truthy value);
    destruct (Utility_Base.is_output_type value); reflexivity.
Qed.

Lemma functionOutputType_RAW_NUMBER_is_final_witness :
  Utility_Base.set_functionOutputType Scenario.linear_7_8_raw
    (Utility_Base.OutputType Utility_Base.NP_1D_ARRAY)
  = Raise UtilityError.
Proof.
  apply (functionOutputType_RAW_NUMBER_is_final Scenario.linear_7_8_raw 2);
    [reflexivity | reflexivity | reflexivity | lia].
Defined.

(** X8. On a function whose output conversion is not enabled, assigning
    NP_1D_ARRAY or NP_2D_ARRAY raises UtilityError, while assigning
    RAW_NUMBER, whose integer is 0, is accepted like None, whatever the
    length of the variable; the property reads None afterwards. *)
Theorem functionOutputType_conversion_disabled :
  forall (self : Utility_Base.t) (n : nat),
    Utility_Base.conversion_enabled self = false ->
    len (Utility_Base.variable self) = Ok n ->
    Utility_Base.set_functionOutputType self
      (Utility_Base.OutputType Utility_Base.NP_1D_ARRAY) = Raise UtilityError
    /\ Utility_Base.set_functionOutputType self
         (Utility_Base.OutputType Utility_Base.NP_2D_ARRAY) = Raise UtilityError
    /\ exists self',
         Utility_Base.set_functionOutputType self
           (Utility_Base.OutputType Utility_Base.RAW_NUMBER) = Ok self'
         /\ Utility_Base._functionOutputType self'
            = Utility_Base.OutputType Utility_Base.RAW_NUMBER
         /\ Utility_Base.functionOutputType self' = Utility_Base.PyNone.
Proof.
  intros self n Hc Hlen.
  unfold Utility_Base.set_functionOutputType, Utility_Base.functionOutputType.
  rewrite Hc, Hlen. simpl. rewrite andb_false_r.
  repeat split. eexists. repeat split.
Qed.

Lemma functionOutputType_conversion_disabled_witness :
  Utility_Base.set_functionOutputType
    (Utility_Base.init (Arr1 [I64 7; I64 8]) false)
    (Utility_Base.OutputType Utility_Base.NP_1D_ARRAY) = Raise UtilityError
  /\ Utility_Base.set_functionOutputType
       (Utility_Base.init (Arr1 [I64 7; I64 8]) false)
       (Utility_Base.OutputType Utility_Base.NP_2D_ARRAY) = Raise UtilityError
  /\ exists self',
       Utility_Base.set_functionOutputType
         (Utility_Base.init (Arr1 [I64 7; I64 8]) false)
         (Utility_Base.OutputType Utility_Base.RAW_NUMBER) = Ok self'
       /\ Utility_Base._functionOutputType self'
          = Utility_Base.OutputType Utility_Base.RAW_NUMBER
       /\ Utility_Base.functionOutputType self' = Utility_Base.PyNone.
Proof.
  apply (functionOutputType_conversion_disabled
           (Utility_Base.init (Arr1 [I64 7; I64 8]) false) 2);
    reflexivity.
Defined.

(** *** Linear *)







(** *** LinearMatrix: what the constructor accepts *)

Lemma LinearMatrix_init_steps
    (sender : list scalar) (declared : option (list scalar))
    (spec : LinearMatrix.matrix_spec) (unrecognized : bool) :
  LinearMatrix.init (Arr1 sender) declared spec unrecognized
  = (rp <- LinearMatrix.validate_params sender declared spec unrecognized ;;
     if negb (length sender =? length rp.1) then Raise UtilityError
     else
       matrix <- LinearMatrix.implement_matrix sender rp.1 (Some spec) ;;
       Ok (LinearMatrix.mk sender rp.1 rp.2 spec matrix
             (Utility_Base.init (Arr1 sender) false))).
Proof.
  unfold LinearMatrix.init. cbn [LinearMatrix.validate_variable bind].
  destruct (LinearMatrix.validate_params sender declared spec unrecognized)
    as [rp|e]; [|reflexivity].
  cbn [bind]. unfold LinearMatrix.implement_matrix at 1.
  destruct (length sender =? length rp.1); [|reflexivity].
  cbn [negb bind]. unfold LinearMatrix.dot_matrix.
  cbn [LinearMatrix.rows_of].
  destruct (dot_identity_length sender) as (r & -> & _). reflexivity.
Qed.

Lemma matrix_replicate_length (n k : nat) (x : scalar) :
  n <> 0%nat -> length (Np.matrix (replicate n (replicate k x))) = n.
Proof.
  destruct n as [|n]; [congruence|]. intros _. simpl.
  rewrite length_replicate. reflexivity.
Qed.

(** What an instance that the constructor returns tells about the
    arguments, and what it holds. *)
Lemma LinearMatrix_init_inv
    (sender : list scalar) (declared : option (list scalar))
    (spec : LinearMatrix.matrix_spec) (unrecognized : bool)
    (f : LinearMatrix.t) :
  LinearMatrix.init (Arr1 sender) declared spec unrecognized = Ok f ->
  unrecognized = false
  /\ length (default sender declared) = length sender
  /\ ((exists x, spec = LinearMatrix.Filler x)
      \/ spec = LinearMatrix.IdentityMatrix
      \/ exists rows,
           spec = LinearMatrix.MatrixNp rows
           /\ Np.matrix_shape rows = (length sender, length sender))
  /\ LinearMatrix.variable f = sender
  /\ (sender <> [] \/ spec = LinearMatrix.IdentityMatrix ->
      length (LinearMatrix.rows_of (LinearMatrix.matrix f)) = length sender)
  /\ (sender = [] -> spec <> LinearMatrix.IdentityMatrix ->
      LinearMatrix.rows_of (LinearMatrix.matrix f) = [[]])
  /\ LinearMatrix.matrix f
     = match spec with
       | LinearMatrix.IdentityMatrix =>
           LinearMatrix.NdArray (LinearMatrix.rows_of (LinearMatrix.matrix f))
       | _ =>
           LinearMatrix.NpMatrix (LinearMatrix.rows_of (LinearMatrix.matrix f))
       end.
Proof.
  rewrite LinearMatrix_init_steps.
  unfold LinearMatrix.validate_params, LinearMatrix.validate_matrix,
    LinearMatrix.implement_matrix.
  change (match declared with Some r => r | None => sender end)
    with (default sender declared).
  set (receiver := default sender declared).
  destruct (Np.matrix_shape
              match spec with
              | LinearMatrix.MatrixList rows | LinearMatrix.MatrixNp rows => rows
              | _ => []
              end) as [mr mc] eqn:Hshape.
  intros H.
  destruct unrecognized;
    [destruct spec; cbn in H; repeat case_match; discriminate|].
  split; [reflexivity|].
  destruct spec as [x| |rows|rows|]; cbn in H, Hshape.
  - destruct (length sender =? length receiver) eqn:E; [|discriminate].
    apply Nat.eqb_eq in E. cbn in H. inversion H; subst f.
    cbn [LinearMatrix.variable LinearMatrix.matrix LinearMatrix.rows_of].
    split; [congruence|]. split; [left; eauto|]. split; [reflexivity|].
    split; [|split; [|reflexivity]].
    + intros [Hne|Hid]; [|discriminate].
      apply matrix_replicate_length. destruct sender; simpl; congruence.
    + intros -> _. reflexivity.
  - destruct (length receiver =? length sender) eqn:E; cbn in H.
    + rewrite Nat.eqb_sym, E in H. cbn in H. inversion H; subst f. cbn.
      apply Nat.eqb_eq in E. unfold Np.identity.
      rewrite length_map, length_seq. split; [congruence|].
      split; [auto|]. split; [reflexivity|]. split; [reflexivity|].
      split; [congruence|reflexivity].
    + rewrite Nat.eqb_sym, E in H. discriminate.
  - rewrite Hshape in H. cbn in H.
    destruct (mr =? length sender); cbn in H; [|discriminate].
    destruct (mc =? length receiver); cbn in H; [|discriminate].
    destruct (length sender =? length receiver); cbn in H; discriminate.
  - rewrite Hshape in H. cbn in H.
    destruct (mr =? length sender) eqn:E1; cbn in H; [|discriminate].
    destruct (mc =? length receiver) eqn:E2; cbn in H; [|discriminate].
    destruct (length sender =? length receiver) eqn:E3; cbn in H;
      [|discriminate].
    apply Nat.eqb_eq in E1, E2, E3. inversion H; subst f. cbn.
    split; [congruence|].
    split.
    { right. right. exists rows. split; [reflexivity|].
      rewrite Hshape. congruence. }
    split; [reflexivity|].
    assert (Hrows : length rows = length sender /\ sender <> []).
    { destruct rows as [|row rows]; cbn in Hshape; inversion Hshape; subst.
      - exfalso. lia.
      - split; [simpl; congruence|].
        destruct sender; simpl in *; congruence. }
    destruct Hrows as [Hrows Hne].
    split; [intros _; exact Hrows|]. split; [intros ->; congruence|].
    reflexivity.
  - discriminate.
Qed.

(** X11. The constructor of LinearMatrix returns an instance exactly when
    the parameters hold no unrecognised entry, the receiver (the sender when
    none is declared) is as long as the sender, and the matrix is a filler
    number, the identity keyword, or an np.matrix with as many rows and as
    many columns as the sender is long.  In particular no mapping between
    vectors of different lengths can be constructed, whatever matrix is
    given, and a matrix given as a list of rows is never accepted. *)
Theorem LinearMatrix_init_accepts :
  forall (sender : list scalar) (declared : option (list scalar))
         (spec : LinearMatrix.matrix_spec) (unrecognized : bool),
    is_ok (LinearMatrix.init (Arr1 sender) declared spec unrecognized) = true
    <-> unrecognized = false
        /\ length (default sender declared) = length sender
        /\ ((exists x, spec = LinearMatrix.Filler x)
            \/ spec = LinearMatrix.IdentityMatrix
            \/ exists rows,
                 spec = LinearMatrix.MatrixNp rows
                 /\ Np.matrix_shape rows = (length sender, length sender)).
Proof.
  intros sender declared spec unrecognized. split.
  - intros H.
    destruct (LinearMatrix.init (Arr1 sender) declared spec unrecognized)
      as [f|e] eqn:Hinit; [|discriminate].
    apply LinearMatrix_init_inv in Hinit as (Hu & Hlen & Hspec & _).
    auto.
  - intros (-> & Hlen & Hspec).
    rewrite LinearMatrix_init_steps.
    unfold LinearMatrix.validate_params, LinearMatrix.validate_matrix,
      LinearMatrix.implement_matrix.
    change (match declared with Some r => r | None => sender end)
      with (default sender declared).
    destruct Hspec as [[x ->]|[->|(rows & -> & Hrows)]]; cbn.
    + rewrite Hlen, Nat.eqb_refl. reflexivity.
    + rewrite Hlen, Nat.eqb_refl. cbn. rewrite Hlen, Nat.eqb_refl. reflexivity.
    + rewrite Hrows. cbn. rewrite Hlen, !Nat.eqb_refl. cbn.
      rewrite Hlen, Nat.eqb_refl. reflexivity.
Qed.









(** *** Arithmetic: the terms without weights, and what the weights multiply *)




Lemma sum_Permutation (l l' : list Z) :
  l ≡ₚ l' -> fold_right Z.add 0%Z l = fold_right Z.add 0%Z l'.
Proof.
  induction 1; simpl; lia.
Qed.

Lemma prod_Permutation (l l' : list Z) :
  l ≡ₚ l' -> fold_right Z.mul 1%Z l = fold_right Z.mul 1%Z l'.
Proof.
  induction 1; simpl; try congruence; lia.
Qed.

Lemma column_ints (m : list (list Z)) (j : nat) :
  Np.column (map (map I64) m) j
  = map I64 (map (fun row => nth j row 0%Z) m).
Proof.
  unfold Np.column. rewrite !List.map_map. apply map_ext. intros row.
  change (I64 0) with (I64 0%Z). apply map_nth.
Qed.

(** X14. Without weights, the SUM and the PRODUCT of the terms of a 2-d
    variable of 64-bit integers do not depend on the order of the terms. *)
Theorem Arithmetic_execute_order_of_terms :
  forall (m m' : list (list Z)) (k : nat)
         (weights : Arithmetic.weights_param)
         (operation : Arithmetic.Operation) (offset scale : scalar),
    Arithmetic.weights_specified weights = false ->
    Forall (fun row => length row = k) m ->
    m ≡ₚ m' ->
    Arithmetic.execute (Arr2 (map (map I64) m)) weights (Member operation)
      offset scale
    = Arithmetic.execute (Arr2 (map (map I64) m')) weights (Member operation)
        offset scale.
Proof.
  intros m m' k weights operation offset scale Hw Hm Hperm.
  destruct (decide (m = [])) as [->|Hne].
  { apply Permutation_nil_l in Hperm. subst m'. reflexivity. }
  assert (Hne' : m' <> []).
  { intros ->. apply Permutation_nil_r in Hperm. contradiction. }
  assert (Hm' : Forall (fun row => length row = k) m').
  { rewrite <- Hperm. exact Hm. }
  assert (Hrows : forall l : list (list Z),
             l <> [] -> Forall (fun row => length row = k) l ->
             map (map I64) l <> []
             /\ Forall (fun row => length row = k) (map (map I64) l)).
  { intros l Hl Hall. split.
    - destruct l; [congruence|discriminate].
    - apply Forall_map. eapply Forall_impl; [exact Hall|].
      simpl. intros row Hrow. rewrite length_map. exact Hrow. }
  destruct (Hrows m Hne Hm) as [Hn1 Hk1].
  destruct (Hrows m' Hne' Hm') as [Hn2 Hk2].
  unfold Arithmetic.execute.
  cbn [Np.np_array_less_than_2d ndim Nat.ltb Nat.leb].
  rewrite !apply_weights_unspecified by exact Hw.
  cbn [bind Np.iter].
  destruct operation; cbn [Arithmetic.operation_is].
  - destruct (py_sum_rows _ k Hn1 Hk1) as (s & -> & Hls & Hs).
    destruct (py_sum_rows _ k Hn2 Hk2) as (s' & -> & Hls' & Hs').
    replace s' with s; [reflexivity|].
    apply list_eq. intros j.
    destruct (decide (j < k)%nat) as [Hj|Hj].
    + rewrite Hs, Hs' by exact Hj. f_equal.
      rewrite !column_ints, !total_ints. do 2 f_equal.
      apply sum_Permutation, fmap_Permutation, Hperm.
    + rewrite !lookup_ge_None_2 by lia. reflexivity.
  - destruct (reduce_mul_rows _ k Hn1 Hk1) as (p & -> & Hlp & Hp).
    destruct (reduce_mul_rows _ k Hn2 Hk2) as (p' & -> & Hlp' & Hp').
    replace p' with p; [reflexivity|].
    apply list_eq. intros j.
    destruct (decide (j < k)%nat) as [Hj|Hj].
    + rewrite Hp, Hp' by exact Hj. f_equal.
      rewrite !column_ints, !product_ints. do 2 f_equal.
      apply prod_Permutation, fmap_Permutation, Hperm.
    + rewrite !lookup_ge_None_2 by lia. reflexivity.
Qed.

Lemma Arithmetic_execute_order_of_terms_witness :
  Arithmetic.execute
    (Arr2 (map (map I64) [[1; 2]; [3; 4]; [5; 6]]%Z))
    Arithmetic.WNotImplemented (Member Arithmetic.SUM) (I64 1) (I64 2)
  = Arithmetic.execute
      (Arr2 (map (map I64) [[5; 6]; [1; 2]; [3; 4]]%Z))
      Arithmetic.WNotImplemented (Member Arithmetic.SUM) (I64 1) (I64 2).
Proof.
  apply (Arithmetic_execute_order_of_terms _ _ 2%nat).
  - reflexivity.
  - repeat constructor.
  - symmetry.
    apply (Permutation_cons_append [[1; 2]; [3; 4]]%Z [5; 6]%Z).
Defined.





(** X16. Validation and execution together: whenever
    Arithmetic.validate_params accepts the weights and the operation, the
    operation is SUM or PRODUCT and execute with the weights it has stored
    applies no weight, that is, it returns what it returns without
    weights.  Weights are thus never in effect after a validation. *)
Theorem Arithmetic_validated_weights_have_no_effect :
  forall (weights weights' : Arithmetic.weights_param)
         (operation : enum_param Arithmetic.Operation)
         (variable : ndarray) (offset scale : scalar),
    Arithmetic.validate_params weights operation = Ok weights' ->
    (operation = Member Arithmetic.SUM
     \/ operation = Member Arithmetic.PRODUCT)
    /\ Arithmetic.execute variable weights' operation offset scale
       = Arithmetic.execute variable Arithmetic.WNotImplemented operation
           offset scale.
Proof.
  intros weights weights' operation variable offset scale H.
  unfold Arithmetic.validate_params in H.
  destruct (Arithmetic.weights_specified weights) eqn:Hw; [discriminate|].
  cbn [bind] in H.
  destruct operation as [[|]|b]; cbn in H.
  - inversion H; subst weights'. split; [left; reflexivity|].
    unfold Arithmetic.execute.
    rewrite (apply_weights_unspecified variable weights Hw). reflexivity.
  - inversion H; subst weights'. split; [right; reflexivity|].
    unfold Arithmetic.execute.
    rewrite (apply_weights_unspecified variable weights Hw). reflexivity.
  - destruct b; discriminate.
Qed.

Lemma Arithmetic_validated_weights_have_no_effect_witness :
  Arithmetic.execute (Arr2 [[I64 1; I64 2]; [I64 3; I64 4]])
    (Arithmetic.WList []) (Member Arithmetic.SUM) (I64 0) (I64 1)
  = Arithmetic.execute (Arr2 [[I64 1; I64 2]; [I64 3; I64 4]])
      Arithmetic.WNotImplemented (Member Arithmetic.SUM) (I64 0) (I64 1).
Proof.
  apply (Arithmetic_validated_weights_have_no_effect
           (Arithmetic.WList []) (Arithmetic.WList [])
           (Member Arithmetic.SUM)).
  reflexivity.
Defined.

(** *** Mapping: what a successful construction leaves behind *)

Section Construction.
Import Projection.

Local Ltac unfold_world :=
  unfold bindM, ret, raise, lift, get_state, get_mechanism, put_state,
    new_output_state in *.

(** The sender, step by step: the state that the sender denotes in the end,
    what it held before, and what the call has written. *)
Lemma Projection_Base_instantiate_sender_state (self self' : t) (w w' : world) :
  Projection_Base.instantiate_sender self w = (Ok self', w') ->
  exists (s : nat) (st0 : MechanismState.t),
    self' = set_variable (set_sender self (StateRef s)) (MechanismState.value st0)
    /\ MechanismState.is_MechanismOutputState st0 = true
    /\ states w' !! s = Some (MechanismState.append_sendsTo st0 (self_id self))
    /\ (forall x, x <> s -> states w' !! x = states w !! x)
    /\ mechanisms w' = mechanisms w
    /\ match sender self with
       | StateRef s0 => s = s0 /\ states w !! s = Some st0
       | MechanismRef m =>
           exists mech, mechanisms w !! m = Some mech
                        /\ s = outputState mech /\ states w !! s = Some st0
       | ClassRef b =>
           b = true /\ states w !! s = None
           /\ st0 = MechanismState.mk true None (kwProjectionSenderValue self)
                      (kwProjectionSenderValue self) [] []
       | NotSpecified => False
       end.
Proof.
  destruct self as [id snd rcv var val ksv kp own ex].
  unfold Projection_Base.instantiate_sender, Projection_Base.assign_defaults.
  unfold_world. simpl. intros H.
  destruct snd as [|[|]|m|s]; simpl in H; try discriminate.
  - rewrite lookup_insert_eq in H. simpl in H.
    set (s := fresh (dom (states w))) in *.
    assert (Hs : states w !! s = None).
    { apply not_elem_of_dom. apply is_fresh. }
    exists s, (MechanismState.mk true None ksv ksv [] []).
    assert (Hw : self' = mk id (StateRef s) rcv ksv val ksv kp own ex
                 /\ w' = mkWorld
                           (<[s := MechanismState.mk true None ksv ksv [id] []]>
                              (states w)) (mechanisms w)).
    { destruct (Main.iscompatible _ _); inversion H; simpl;
        by rewrite insert_insert_eq. }
    destruct Hw as [-> ->]. simpl.
    split; [reflexivity|]. split; [reflexivity|].
    split; [by rewrite lookup_insert_eq|].
    split; [intros x Hx; by rewrite lookup_insert_ne|].
    auto.
  - destruct (mechanisms w !! m) as [mech|] eqn:Hm; simpl in H; [|discriminate].
    destruct (states w !! outputState mech) as [st|] eqn:Hst; simpl in H;
      [|discriminate].
    destruct (MechanismState.is_MechanismOutputState st) eqn:Hout; simpl in H;
      [|discriminate].
    exists (outputState mech), st.
    assert (Hw : self' = mk id (StateRef (outputState mech)) rcv
                           (MechanismState.value st) val ksv kp own ex
                 /\ w' = mkWorld
                           (<[outputState mech
                              := MechanismState.append_sendsTo st id]>
                              (states w)) (mechanisms w)).
    { destruct (Main.iscompatible _ _); inversion H; auto. }
    destruct Hw as [-> ->]. simpl.
    split; [reflexivity|]. split; [exact Hout|].
    split; [by rewrite lookup_insert_eq|].
    split; [intros x Hx; by rewrite lookup_insert_ne|].
    split; [reflexivity|]. eauto.
  - destruct (states w !! s) as [st|] eqn:Hst; simpl in H; [|discriminate].
    destruct (MechanismState.is_MechanismOutputState st) eqn:Hout; simpl in H;
      [|discriminate].
    exists s, st.
    assert (Hw : self' = mk id (StateRef s) rcv
                           (MechanismState.value st) val ksv kp own ex
                 /\ w' = mkWorld
                           (<[s := MechanismState.append_sendsTo st id]>
                              (states w)) (mechanisms w)).
    { destruct (Main.iscompatible _ _); inversion H; auto. }
    destruct Hw as [-> ->]. simpl.
    split; [reflexivity|]. split; [exact Hout|].
    split; [by rewrite lookup_insert_eq|].
    split; [intros x Hx; by rewrite lookup_insert_ne|].
    auto.
Qed.

(** The guard of [Mapping.instantiate_sender] on a sender that is given as
    a state. *)
Lemma Mapping_instantiate_sender_guard (self self' : t) (w w' : world)
    (s : nat) (st : MechanismState.t) (names : list string) :
  Mapping.instantiate_sender self w = (Ok self', w') ->
  sender self = StateRef s ->
  states w !! s = Some st ->
  MechanismState.process_input st = Some names ->
  (length names <= 1)%nat.
Proof.
  unfold Mapping.instantiate_sender. unfold bindM at 1. unfold_world.
  intros H Hsnd Hst Hnames. rewrite Hsnd, Hst, Hnames in H.
  destruct (1 <? length names) eqn:E; [discriminate|].
  apply Nat.ltb_ge in E. exact E.
Qed.

(** The receiver, step by step. *)
Lemma instantiate_receiver_state_ok (self self' : t) (w w' : world) :
  Projection_Base.instantiate_receiver self w = (Ok self', w') ->
  exists (r : nat) (st0 : MechanismState.t),
    self' = set_receiver self (StateRef r)
    /\ states w !! r = Some st0
    /\ states w' !! r
       = Some (MechanismState.append_receivesFrom st0 (self_id self))
    /\ (forall x, x <> r -> states w' !! x = states w !! x)
    /\ mechanisms w' = mechanisms w
    /\ match receiver self with
       | StateRef r0 => r = r0
       | MechanismRef m =>
           exists mech, mechanisms w !! m = Some mech /\ r = inputState mech
       | _ => False
       end.
Proof.
  destruct self as [id snd rcv var val ksv kp own ex].
  unfold Projection_Base.instantiate_receiver. unfold_world. simpl.
  intros H.
  destruct rcv as [| |m|r]; simpl in H; try discriminate.
  - destruct (mechanisms w !! m) as [mech|] eqn:Hm; simpl in H; [|discriminate].
    destruct (states w !! inputState mech) as [st|] eqn:Hst; simpl in H;
      [|discriminate].
    inversion H; subst. exists (inputState mech), st. simpl.
    split; [reflexivity|]. split; [exact Hst|].
    split; [by rewrite lookup_insert_eq|].
    split; [intros x Hx; by rewrite lookup_insert_ne|].
    split; [reflexivity|]. eauto.
  - destruct (states w !! r) as [st|] eqn:Hst; simpl in H; [|discriminate].
    inversion H; subst. exists r, st. simpl.
    split; [reflexivity|]. split; [exact Hst|].
    split; [by rewrite lookup_insert_eq|].
    split; [intros x Hx; by rewrite lookup_insert_ne|].
    auto.
Qed.

(** The transform is instantiated without a change to the endpoints, the
    identity or the variable of the projection; the method that is bound in
    the end is the projection's own or a LinearMatrix with the matrix that
    the constructor of LinearMatrix has made. *)
Lemma try_set_functionOutputType_keeps (self self' : t)
    (value : Utility_Base.UtilityFunctionOutputType) :
  Projection_Base.try_set_functionOutputType self value = Ok self' ->
  exists f f', execute self = Transform f
               /\ self' = set_execute self (Transform f')
               /\ LinearMatrix.matrix f' = LinearMatrix.matrix f.
Proof.
  unfold Projection_Base.try_set_functionOutputType,
    Projection_Base.execute_self.
  intros H. destruct (execute self) as [|f|]; try discriminate.
  cbn [bind] in H.
  destruct (Utility_Base.set_functionOutputType _ _) as [b|[]];
    try discriminate.
  inversion H. eexists f, _. split; [reflexivity|].
  split; reflexivity.
Qed.

Lemma Projection_Base_instantiate_execute_method_keeps
    (self self' : t) (w w' : world) :
  Projection_Base.instantiate_execute_method self w = (Ok self', w') ->
  exists (f0 : LinearMatrix.t) (m : method) (v : ndarray),
    LinearMatrix.init (variable self)
      (kwReceiver (kwExecuteMethodParams self))
      (kwMatrix (kwExecuteMethodParams self))
      (unrecognized (kwExecuteMethodParams self)) = Ok f0
    /\ self' = set_value (set_execute self m) v
    /\ match m with
       | Transform f =>
           LinearMatrix.matrix f = LinearMatrix.matrix f0
           /\ exists out,
                LinearMatrix.execute f0 (variable self) = Ok out
                /\ (v = out \/ v = Num (I64 0) \/ v = Arr1 [I64 0])
       | OwnMethod _ => own_execute self <> None
       | Unbound => False
       end.
Proof.
  destruct self as [id sd rcv var val ksv kp own ex].
  unfold Projection_Base.instantiate_execute_method,
    Projection_Base.Function_instantiate_execute_method.
  unfold bindM at 1. unfold lift at 1. cbn [variable kwExecuteMethodParams].
  destruct (LinearMatrix.init var _ _ _) as [f|]; [|discriminate].
  cbn [bind].
  destruct (LinearMatrix.execute f var) as [out|] eqn:Hout; [|discriminate].
  cbn [bind set_value set_execute self_id sender receiver variable value
         kwProjectionSenderValue kwExecuteMethodParams own_execute execute].
  destruct rcv as [| | |r]; try discriminate.
  unfold_world. destruct (states w !! r) as [rcv|]; [|discriminate].
  unfold set_value, set_execute.
  cbn [self_id sender receiver variable value
         kwProjectionSenderValue kwExecuteMethodParams own_execute execute].
  destruct (Main.iscompatible out (MechanismState.variable rcv)).
  { intros H. inversion H. exists f, (Transform f), out. eauto 10. }
  set (p := mk id sd (StateRef r) var out ksv kp own (Transform f)).
  assert (Hattempt :
            forall a,
              match Projection_Base.try_to_number p
                      (MechanismState.variable rcv) out with
              | Raise TypeError =>
                  Projection_Base.try_to_1d_array p
                    (MechanismState.variable rcv) out
              | r => r
              end = Ok a ->
              exists f' v',
                a.2 = mk id sd (StateRef r) var v' ksv kp own (Transform f')
                /\ LinearMatrix.matrix f' = LinearMatrix.matrix f
                /\ (v' = out \/ v' = Num (I64 0) \/ v' = Arr1 [I64 0])).
  { intros a Ha.
    assert (H1 : forall a, Projection_Base.try_to_number p
                             (MechanismState.variable rcv) out = Ok a ->
                 exists f' v',
                   a.2 = mk id sd (StateRef r) var v' ksv kp own (Transform f')
                   /\ LinearMatrix.matrix f' = LinearMatrix.matrix f
                   /\ (v' = out \/ v' = Num (I64 0) \/ v' = Arr1 [I64 0])).
    { clear. intros a. unfold Projection_Base.try_to_number.
      destruct (is_number _); [|intros H; inversion H; eauto 10].
      destruct (len out) as [n|]; [|discriminate]. cbn [bind].
      destruct (n =? 1); [|intros H; inversion H; eauto 10].
      destruct (Projection_Base.try_set_functionOutputType p _) as [p'|]
        eqn:Hp'; [|discriminate].
      apply try_set_functionOutputType_keeps in Hp'
        as (f1 & f' & Hf1 & -> & Hmatrix).
      cbn in Hf1. inversion Hf1; subst f1.
      cbn [bind]. destruct (Projection_Base.call_execute _); [|discriminate].
      cbn [bind]. destruct (Main.iscompatible _ _); intros H; inversion H;
        eauto 10. }
    assert (H2 : forall a, Projection_Base.try_to_1d_array p
                             (MechanismState.variable rcv) out = Ok a ->
                 exists f' v',
                   a.2 = mk id sd (StateRef r) var v' ksv kp own (Transform f')
                   /\ LinearMatrix.matrix f' = LinearMatrix.matrix f
                   /\ (v' = out \/ v' = Num (I64 0) \/ v' = Arr1 [I64 0])).
    { clear. intros a. unfold Projection_Base.try_to_1d_array.
      destruct (is_number _); [|intros H; inversion H; eauto 10].
      destruct (len _) as [n|]; [|discriminate]. cbn [bind].
      destruct (n =? 1); [|intros H; inversion H; eauto 10].
      destruct (Projection_Base.try_set_functionOutputType p _) as [p'|]
        eqn:Hp'; [|discriminate].
      apply try_set_functionOutputType_keeps in Hp'
        as (f1 & f' & Hf1 & -> & Hmatrix).
      cbn in Hf1. inversion Hf1; subst f1.
      cbn [bind]. intros H; inversion H; eauto 10. }
    destruct (Projection_Base.try_to_number p _ out) as [a'|e] eqn:E.
    - inversion Ha; subst a'. eauto.
    - destruct e; try discriminate. eauto. }
  destruct (match Projection_Base.try_to_number p _ out with
            | Raise TypeError => _
            | r => r
            end) as [a|e] eqn:Ea; [|intros H; simpl in H; discriminate].
  destruct (Hattempt a eq_refl) as (f' & v' & Ha2 & Hmatrix & Hv').
  destruct a as [b p']. simpl in Ha2. subst p'. cbn [fst snd].
  destruct b.
  { intros H. inversion H. exists f, (Transform f'), v'. eauto 10. }
  cbn [own_execute]. destruct own as [output|];
    [|intros H; simpl in H; discriminate].
  destruct (negb _); [intros H; simpl in H; discriminate|].
  intros H. inversion H. exists f, (OwnMethod output), output.
  split; [reflexivity|]. split; [reflexivity|]. discriminate.
Qed.

Lemma Mapping_instantiate_execute_method_ok (self self' : t) (w w' : world) :
  Mapping.instantiate_execute_method self w = (Ok self', w') ->
  w' = w
  /\ (exists (f0 : LinearMatrix.t) (m : method) (v : ndarray),
        LinearMatrix.init (variable self)
          (kwReceiver (kwExecuteMethodParams self))
          (kwMatrix (kwExecuteMethodParams self))
          (unrecognized (kwExecuteMethodParams self)) = Ok f0
        /\ self' = set_value (set_execute self m) v
        /\ match m with
           | Transform f =>
               LinearMatrix.matrix f = LinearMatrix.matrix f0
               /\ exists out,
                    LinearMatrix.execute f0 (variable self) = Ok out
                    /\ (v = out \/ v = Num (I64 0) \/ v = Arr1 [I64 0])
           | OwnMethod _ => own_execute self <> None
           | Unbound => False
           end)
  /\ exists r rcv,
       receiver self = StateRef r
       /\ states w !! r = Some rcv
       /\ Mapping.len_or_1 (MechanismState.value rcv)
          = Mapping.len_or_1 (value self').
Proof.
  intros H.
  pose proof (Mapping_instantiate_execute_method_world self w) as Hw.
  rewrite H in Hw. simpl in Hw. subst w'. split; [reflexivity|].
  unfold Mapping.instantiate_execute_method in H. unfold bindM at 1 in H.
  pose proof (Projection_Base_instantiate_execute_method_world self w) as Hw.
  destruct (Projection_Base.instantiate_execute_method self w)
    as [[p|e] w1] eqn:Hbase; [|discriminate].
  simpl in Hw. subst w1.
  apply Projection_Base_instantiate_execute_method_keeps in Hbase
    as (f0 & m & v & Hf0 & -> & Hm).
  cbn [receiver set_value set_execute] in H.
  destruct (receiver self) as [| | |r] eqn:Hrcv; try discriminate.
  unfold_world. destruct (states w !! r) as [rcv|] eqn:Hr; [|discriminate].
  destruct (Mapping.len_or_1 (MechanismState.value rcv) =? _) eqn:E;
    [|discriminate].
  cbn [negb] in H. inversion H; subst self'.
  split; [eauto 10|]. exists r, rcv. split; [reflexivity|].
  split; [exact Hr|]. apply Nat.eqb_eq in E. exact E.
Qed.

End Construction.

Lemma Mapping_init_steps (self self' : Projection.t) (w w' : Projection.world) :
  Mapping.init self w = (Ok self', w') ->
  exists (self1 self2 : Projection.t) (w1 : Projection.world),
    Mapping.instantiate_sender self w = (Ok self1, w1)
    /\ Projection_Base.instantiate_receiver self1 w1 = (Ok self2, w')
    /\ Mapping.instantiate_execute_method self2 w' = (Ok self', w').
Proof.
  unfold Mapping.init,
    Projection_Base.instantiate_attributes_before_execute_method.
  unfold Projection.bindM. intros H.
  destruct (Mapping.instantiate_sender self w) as [[self1|e] w1];
    [|discriminate].
  destruct (Projection_Base.instantiate_receiver self1 w1)
    as [[self2|e] w2] eqn:Hr; [|discriminate].
  pose proof (Mapping_instantiate_execute_method_world self2 w2) as Hw.
  rewrite H in Hw. simpl in Hw. subst w2.
  exists self1, self2, w1. auto.
Qed.

(** X17. A Mapping that is constructed is entered once, at the end, in the
    sendsToProjections of the state that its sender denotes in the end and
    in the receivesFromProjections of the state that its receiver denotes;
    the lists of all other states are as they were. *)
Theorem Mapping_init_registers :
  forall (self self' : Projection.t) (w w' : Projection.world),
    Mapping.init self w = (Ok self', w') ->
    exists s r : nat,
      Projection.sender self' = Projection.StateRef s
      /\ Projection.receiver self' = Projection.StateRef r
      /\ Projection.self_id self' = Projection.self_id self
      /\ Projection.sends w' s
         = Projection.sends w s ++ [Projection.self_id self]
      /\ Projection.receives w' r
         = Projection.receives w r ++ [Projection.self_id self]
      /\ (forall x, x <> s -> Projection.sends w' x = Projection.sends w x)
      /\ (forall x, x <> r ->
                    Projection.receives w' x = Projection.receives w x).
Proof.
  intros self self' w w' H.
  apply Mapping_init_steps in H as (self1 & self2 & w1 & Hs & Hr & He).
  apply Mapping_instantiate_sender_ok in Hs.
  apply Projection_Base_instantiate_sender_ok in Hs
    as (s & Hsnd & Hrcv & Hid & Hsends & Hsends' & Hrecv).
  apply instantiate_receiver_ok in Hr
    as (r & Hrcv2 & Hsnd2 & Hid2 & Hrecv2 & Hrecv2' & Hsends2).
  apply Mapping_instantiate_execute_method_ok in He
    as (_ & (f0 & f & v & _ & -> & _) & _).
  exists s, r. cbn [Projection.sender Projection.receiver Projection.self_id
                    Projection.set_value Projection.set_execute].
  split; [congruence|]. split; [exact Hrcv2|]. split; [congruence|].
  split; [rewrite Hsends2; exact Hsends|].
  split; [rewrite Hrecv2, Hrecv, Hid; reflexivity|].
  split.
  - intros x Hx. rewrite Hsends2. apply Hsends'. exact Hx.
  - intros x Hx. rewrite Hrecv2' by exact Hx. apply Hrecv.
Qed.

Lemma Mapping_init_registers_witness :
  exists (p : Projection.t) (w' : Projection.world),
    Mapping.init (Scenario.mapping 2) Scenario.w = (Ok p, w')
    /\ exists s r : nat,
         Projection.sender p = Projection.StateRef s
         /\ Projection.receiver p = Projection.StateRef r
         /\ Projection.self_id p = Projection.self_id (Scenario.mapping 2)
         /\ Projection.sends w' s
            = Projection.sends Scenario.w s
                ++ [Projection.self_id (Scenario.mapping 2)]
         /\ Projection.receives w' r
            = Projection.receives Scenario.w r
                ++ [Projection.self_id (Scenario.mapping 2)]
         /\ (forall x, x <> s ->
                       Projection.sends w' x = Projection.sends Scenario.w x)
         /\ (forall x, x <> r ->
                       Projection.receives w' x
                       = Projection.receives Scenario.w x).
Proof.
  destruct (Mapping.init (Scenario.mapping 2) Scenario.w) as [[p|e] w']
    eqn:Hinit; [|vm_compute in Hinit; discriminate].
  exists p, w'. split; [reflexivity|].
  exact (Mapping_init_registers _ _ _ _ Hinit).
Defined.

(** X18. After a Mapping is constructed, its sender denotes a state that
    is a MechanismOutputState, the variable of the projection is the value
    of that state, and the value of the state that its receiver denotes has
    the length of the value of the projection (a number counting as length
    1). *)
Theorem Mapping_init_endpoints :
  forall (self self' : Projection.t) (w w' : Projection.world),
    Mapping.init self w = (Ok self', w') ->
    exists (s r : nat) (snd_state rcv_state : MechanismState.t),
      Projection.sender self' = Projection.StateRef s
      /\ Projection.receiver self' = Projection.StateRef r
      /\ Projection.states w' !! s = Some snd_state
      /\ Projection.states w' !! r = Some rcv_state
      /\ MechanismState.is_MechanismOutputState snd_state = true
      /\ Projection.variable self' = MechanismState.value snd_state
      /\ Mapping.len_or_1 (MechanismState.value rcv_state)
         = Mapping.len_or_1 (Projection.value self').
Proof.
  intros self self' w w' H.
  apply Mapping_init_steps in H as (self1 & self2 & w1 & Hs & Hr & He).
  apply Mapping_instantiate_sender_ok in Hs.
  apply Projection_Base_instantiate_sender_state in Hs
    as (s & st0 & -> & Hout & Hs1 & _ & _ & _).
  apply instantiate_receiver_state_ok in Hr
    as (r & rst0 & -> & Hr1 & Hr2 & Hother & _ & _).
  apply Mapping_instantiate_execute_method_ok in He
    as (_ & (f0 & f & v & _ & -> & _) & (r' & rcv & Hrcv & Hrcv' & Hlen)).
  cbn in Hrcv. inversion Hrcv; subst r'. clear Hrcv.
  destruct (decide (s = r)) as [->|Hsr].
  - exists r, r, rcv, rcv. cbn.
    rewrite Hrcv' in Hr2. inversion Hr2; subst rcv.
    rewrite Hs1 in Hr1. inversion Hr1; subst rst0.
    cbn. repeat split; auto.
  - exists s, r, (MechanismState.append_sendsTo st0 (Projection.self_id self)),
      rcv. cbn.
    rewrite (Hother s Hsr). repeat split; auto.
Qed.

Lemma Mapping_init_endpoints_witness :
  exists (p : Projection.t) (w' : Projection.world),
    Mapping.init (Scenario.mapping 2) Scenario.w = (Ok p, w')
    /\ exists (s r : nat) (snd_state rcv_state : MechanismState.t),
         Projection.sender p = Projection.StateRef s
         /\ Projection.receiver p = Projection.StateRef r
         /\ Projection.states w' !! s = Some snd_state
         /\ Projection.states w' !! r = Some rcv_state
         /\ MechanismState.is_MechanismOutputState snd_state = true
         /\ Projection.variable p = MechanismState.value snd_state
         /\ Mapping.len_or_1 (MechanismState.value rcv_state)
            = Mapping.len_or_1 (Projection.value p).
Proof.
  destruct (Mapping.init (Scenario.mapping 2) Scenario.w) as [[p|e] w']
    eqn:Hinit; [|vm_compute in Hinit; discriminate].
  exists p, w'. split; [reflexivity|].
  exact (Mapping_init_endpoints _ _ _ _ Hinit).
Defined.

(** X19. How the endpoints are resolved when a Mapping is constructed: a
    sender given as a mechanism becomes the output state of that mechanism,
    a receiver given as a mechanism becomes its input state, an endpoint
    given as a state stays that state; a sender that was not specified and
    a receiver that is neither a mechanism nor a state are never
    accepted. *)
Theorem Mapping_init_resolves_endpoints :
  forall (self self' : Projection.t) (w w' : Projection.world),
    Mapping.init self w = (Ok self', w') ->
    match Projection.sender self with
    | Projection.StateRef s => Projection.sender self' = Projection.StateRef s
    | Projection.MechanismRef m =>
        exists mech,
          Projection.mechanisms w !! m = Some mech
          /\ Projection.sender self'
             = Projection.StateRef (Projection.outputState mech)
    | Projection.ClassRef b => b = true
    | Projection.NotSpecified => False
    end
    /\ match Projection.receiver self with
       | Projection.StateRef r =>
           Projection.receiver self' = Projection.StateRef r
       | Projection.MechanismRef m =>
           exists mech,
             Projection.mechanisms w !! m = Some mech
             /\ Projection.receiver self'
                = Projection.StateRef (Projection.inputState mech)
       | _ => False
       end.
Proof.
  intros self self' w w' H.
  apply Mapping_init_steps in H as (self1 & self2 & w1 & Hs & Hr & He).
  apply Mapping_instantiate_sender_ok in Hs.
  apply Projection_Base_instantiate_sender_state in Hs
    as (s & st0 & -> & _ & _ & _ & Hmech & Hsender).
  apply instantiate_receiver_state_ok in Hr
    as (r & rst0 & -> & _ & _ & _ & _ & Hreceiver).
  apply Mapping_instantiate_execute_method_ok in He
    as (_ & (f0 & f & v & _ & -> & _) & _).
  cbn in Hreceiver. cbn. split.
  - destruct (Projection.sender self) as [|b|m|s0].
    + exact Hsender.
    + tauto.
    + destruct Hsender as (mech & Hm & -> & _). eauto.
    + destruct Hsender as [-> _]. reflexivity.
  - destruct (Projection.receiver self) as [|b|m|r0]; try exact Hreceiver.
    + destruct Hreceiver as (mech & Hm & ->). rewrite Hmech in Hm. eauto.
    + congruence.
Qed.

Lemma Mapping_init_resolves_endpoints_witness :
  exists (p : Projection.t) (w' : Projection.world),
    Mapping.init Examples.mapping_of_mechanisms Examples.w_mechanism
    = (Ok p, w')
    /\ Projection.sender p = Projection.StateRef 0
    /\ Projection.receiver p = Projection.StateRef 2.
Proof.
  destruct (Mapping.init Examples.mapping_of_mechanisms Examples.w_mechanism)
    as [[p|e] w'] eqn:Hinit; [|vm_compute in Hinit; discriminate].
  exists p, w'. split; [reflexivity|].
  destruct (Mapping_init_resolves_endpoints _ _ _ _ Hinit)
    as [(mech & Hm & Hsnd) (mech' & Hm' & Hrcv)].
  vm_compute in Hm. inversion Hm; subst mech.
  vm_compute in Hm'. inversion Hm'; subst mech'.
  split; [exact Hsnd|exact Hrcv].
Defined.

(** X20. A Mapping whose sender is left to the default class is
    constructed only if that class is a MechanismOutputState; the sender is
    then a state that did not exist before, whose value is
    kwProjectionSenderValue and whose sendsToProjections holds this
    projection alone, the variable of the projection is that value, and the
    sendsToProjections of every state that existed is unchanged. *)
Theorem Mapping_init_default_sender :
  forall (self self' : Projection.t) (w w' : Projection.world) (b : bool),
    Projection.sender self = Projection.ClassRef b ->
    Mapping.init self w = (Ok self', w') ->
    b = true
    /\ exists (s : nat) (snd_state : MechanismState.t),
         Projection.sender self' = Projection.StateRef s
         /\ Projection.states w !! s = None
         /\ Projection.states w' !! s = Some snd_state
         /\ MechanismState.is_MechanismOutputState snd_state = true
         /\ MechanismState.value snd_state
            = Projection.kwProjectionSenderValue self
         /\ MechanismState.sendsToProjections snd_state
            = [Projection.self_id self]
         /\ Projection.variable self'
            = Projection.kwProjectionSenderValue self
         /\ forall x, x <> s -> Projection.sends w' x = Projection.sends w x.
Proof.
  intros self self' w w' b Hclass H.
  apply Mapping_init_steps in H as (self1 & self2 & w1 & Hs & Hr & He).
  apply Mapping_instantiate_sender_ok in Hs.
  assert (Hsends : forall s, Projection.sender self1 = Projection.StateRef s ->
                     forall x, x <> s ->
                               Projection.sends w' x = Projection.sends w x).
  { intros s Hs1 x Hx.
    destruct (Projection_Base_instantiate_sender_ok _ _ _ _ Hs)
      as (s0 & Hs0 & _ & _ & _ & Hkeep & _).
    destruct (instantiate_receiver_ok _ _ _ _ Hr)
      as (r0 & _ & _ & _ & _ & _ & Hkeep').
    rewrite Hkeep'. apply Hkeep. congruence. }
  apply Projection_Base_instantiate_sender_state in Hs
    as (s & st0 & -> & _ & Hs1 & _ & _ & Hsender).
  rewrite Hclass in Hsender. destruct Hsender as (-> & Hfresh & ->).
  specialize (Hsends s eq_refl).
  apply instantiate_receiver_state_ok in Hr
    as (r & rst0 & -> & Hr1 & Hr2 & Hother & _ & _).
  apply Mapping_instantiate_execute_method_ok in He
    as (_ & (f0 & f & v & _ & -> & _) & _).
  split; [reflexivity|].
  destruct (decide (s = r)) as [->|Hsr].
  - rewrite Hs1 in Hr1. inversion Hr1; subst rst0.
    eexists r, _. cbn. split; [reflexivity|]. split; [exact Hfresh|].
    split; [exact Hr2|]. cbn. repeat split; auto.
  - eexists s, _. cbn. split; [reflexivity|]. split; [exact Hfresh|].
    split; [rewrite (Hother s Hsr); exact Hs1|]. cbn. repeat split; auto.
Qed.

Lemma Mapping_init_default_sender_witness :
  exists (p : Projection.t) (w' : Projection.world),
    Mapping.init Examples.mapping_by_default (Scenario.process_world [])
    = (Ok p, w')
    /\ exists (s : nat) (snd_state : MechanismState.t),
         Projection.sender p = Projection.StateRef s
         /\ Projection.states (Scenario.process_world []) !! s = None
         /\ Projection.states w' !! s = Some snd_state
         /\ MechanismState.is_MechanismOutputState snd_state = true
         /\ MechanismState.value snd_state
            = Projection.kwProjectionSenderValue Examples.mapping_by_default
         /\ MechanismState.sendsToProjections snd_state
            = [Projection.self_id Examples.mapping_by_default]
         /\ Projection.variable p
            = Projection.kwProjectionSenderValue Examples.mapping_by_default
         /\ forall x, x <> s ->
                      Projection.sends w' x
                      = Projection.sends (Scenario.process_world []) x.
Proof.
  destruct (Mapping.init Examples.mapping_by_default
              (Scenario.process_world [])) as [[p|e] w'] eqn:Hinit;
    [|vm_compute in Hinit; discriminate].
  exists p, w'. split; [reflexivity|].
  exact (proj2 (Mapping_init_default_sender Examples.mapping_by_default p
                  (Scenario.process_world []) w' true eq_refl Hinit)).
Defined.

Lemma LinearMatrix_init_variable
    (variable : ndarray) (declared : option (list scalar))
    (spec : LinearMatrix.matrix_spec) (unrecognized : bool)
    (f : LinearMatrix.t) :
  LinearMatrix.init variable declared spec unrecognized = Ok f ->
  exists sender, variable = Arr1 sender.
Proof.
  destruct variable as [x|v|m]; try discriminate. eauto.
Qed.

Lemma dot_matrix_ok (v : list scalar) (m : LinearMatrix.implemented) :
  length v = length (LinearMatrix.rows_of m) ->
  exists out, LinearMatrix.dot_matrix v m = Ok out.
Proof.
  intros H. unfold LinearMatrix.dot_matrix, Np.dot.
  rewrite H, Nat.eqb_refl. cbn [bind]. destruct m; eauto.
Qed.

Lemma LinearMatrix_execute_ok_length (f : LinearMatrix.t) (v : list scalar)
    (out : ndarray) :
  LinearMatrix.execute f (Arr1 v) = Ok out ->
  length v = length (LinearMatrix.rows_of (LinearMatrix.matrix f)).
Proof.
  unfold LinearMatrix.execute, LinearMatrix.dot_matrix, Np.dot.
  cbn [LinearMatrix.validate_variable bind].
  destruct (length v =? _) eqn:E; [|discriminate].
  intros _. apply Nat.eqb_eq, E.
Qed.

(** X21. A Mapping that was constructed can be updated: its variable is a
    1-d array, and update returns a result, and writes nothing, in the
    world that the construction has left and in every world in which the
    value of the sender is a 1-d array of the length of that variable. *)
Theorem Mapping_update_after_init :
  forall (self self' : Projection.t) (w w' : Projection.world),
    Mapping.init self w = (Ok self', w') ->
    exists (s : nat) (v0 : list scalar),
      Projection.sender self' = Projection.StateRef s
      /\ Projection.variable self' = Arr1 v0
      /\ (exists out, Mapping.update self' w' = (Ok out, w'))
      /\ forall (w'' : Projection.world) (st'' : MechanismState.t)
                (v : list scalar),
           Projection.states w'' !! s = Some st'' ->
           MechanismState.value st'' = Arr1 v ->
           length v = length v0 ->
           exists out, Mapping.update self' w'' = (Ok out, w'').
Proof.
  intros self self' w w' H.
  apply Mapping_init_steps in H as (self1 & self2 & w1 & Hs & Hr & He).
  apply Mapping_instantiate_sender_ok in Hs.
  apply Projection_Base_instantiate_sender_state in Hs
    as (s & st0 & -> & _ & Hs1 & _ & _ & _).
  apply instantiate_receiver_state_ok in Hr
    as (r & rst0 & -> & Hr1 & Hr2 & Hother & _ & _).
  apply Mapping_instantiate_execute_method_ok in He
    as (_ & (f0 & m & out0 & Hf0 & -> & Hm) & _).
  cbn in Hf0.
  destruct (LinearMatrix_init_variable _ _ _ _ _ Hf0) as [v0 Hv0].
  rewrite Hv0 in Hf0. cbn in Hm. rewrite Hv0 in Hm.
  assert (Hlater :
            forall (w'' : Projection.world) (st'' : MechanismState.t)
                   (v : list scalar),
              Projection.states w'' !! s = Some st'' ->
              MechanismState.value st'' = Arr1 v ->
              length v = length v0 ->
              exists out,
                Mapping.update
                  (Projection.set_value
                     (Projection.set_execute
                        (Projection.set_receiver
                           (Projection.set_variable
                              (Projection.set_sender self
                                 (Projection.StateRef s))
                              (MechanismState.value st0))
                           (Projection.StateRef r)) m) out0) w''
                = (Ok out, w'')).
  { intros w'' st'' v Hst Hval Hlen.
    unfold Mapping.update, Projection.bindM, Projection.get_state,
      Projection.lift, Projection.ret.
    cbn [Projection.sender Projection.execute Projection.set_value
           Projection.set_execute Projection.set_receiver
           Projection.set_variable Projection.set_sender].
    rewrite Hst. destruct m as [|f|output]; [contradiction| |eauto].
    destruct Hm as [Hm (out1 & Hout1 & _)].
    apply LinearMatrix_execute_ok_length in Hout1.
    rewrite Hval. unfold LinearMatrix.execute.
    cbn [LinearMatrix.validate_variable bind]. rewrite Hm.
    destruct (dot_matrix_ok v (LinearMatrix.matrix f0)) as [out Hout];
      [congruence|].
    rewrite Hout. eauto. }
  exists s, v0. split; [reflexivity|]. split; [exact Hv0|].
  split; [|exact Hlater].
  destruct (decide (s = r)) as [->|Hsr].
  - rewrite Hs1 in Hr1. inversion Hr1; subst rst0.
    eapply Hlater; [exact Hr2| |reflexivity]. exact Hv0.
  - eapply Hlater; [rewrite (Hother s Hsr); exact Hs1| |reflexivity].
    exact Hv0.
Qed.

Lemma Mapping_update_after_init_witness :
  exists (p : Projection.t) (w' : Projection.world),
    Mapping.init (Scenario.mapping 2) Scenario.w = (Ok p, w')
    /\ exists out, Mapping.update p w' = (Ok out, w').
Proof.
  destruct (Mapping.init (Scenario.mapping 2) Scenario.w) as [[p|e] w']
    eqn:Hinit; [|vm_compute in Hinit; discriminate].
  exists p, w'. split; [reflexivity|].
  destruct (Mapping_update_after_init _ _ _ _ Hinit)
    as (s & v0 & _ & _ & Hnow & _).
  exact Hnow.
Defined.

(** *** Projection_Base.validate_params: which sender is kept *)

(** X22. Projection_Base.validate_params returns exactly when the entry
    kwProjectionSender is present and is an instance or a class of Mechanism
    or MechanismState.  An entry that is not raises TypeError whatever the
    sender argument is, so the class default is never fallen back on.  When
    it returns, self.sender is the entry, unless the entry is the class
    default and the sender argument is a Mechanism, a MechanismState, a
    Process or a class of the first two: then the sender argument is
    kept. *)
Theorem Projection_validate_params_sender :
  forall (sender : Projection_Base_params.sender_arg)
         (sender_param : option Projection_Base_params.pyobj)
         (class_default : Projection_Base_params.pyobj),
    (is_ok (Projection_Base_params.validate_params sender sender_param
              class_default) = true
     <-> exists p,
           sender_param = Some p
           /\ Projection_Base_params.is_Mechanism_or_State p
              || Projection_Base_params.is_Mechanism_or_State_class p = true)
    /\ (forall p,
          sender_param = Some p ->
          Projection_Base_params.is_Mechanism_or_State p
          || Projection_Base_params.is_Mechanism_or_State_class p = false ->
          Projection_Base_params.validate_params sender sender_param
            class_default = Raise TypeError)
    /\ (forall r,
          Projection_Base_params.validate_params sender sender_param
            class_default = Ok r ->
          exists p,
            sender_param = Some p
            /\ (r = Projection_Base_params.Given p
                \/ (r = sender
                    /\ Projection_Base_params.oid p
                       = Projection_Base_params.oid class_default
                    /\ exists o,
                         sender = Projection_Base_params.Given o
                         /\ Projection_Base_params.is_Mechanism_or_State o
                            || Projection_Base_params.is_Process o
                            || Projection_Base_params.is_Mechanism_or_State_class o
                            = true))).
Proof.
  intros sender sender_param class_default.
  unfold Projection_Base_params.validate_params.
  split; [|split].
  - split.
    + destruct sender_param as [p|]; [|discriminate].
      destruct (_ || _) eqn:E; [eauto|discriminate].
    + intros (p & -> & ->).
      destruct (negb _); [reflexivity|].
      destruct sender as [|o]; [reflexivity|].
      destruct (negb _); reflexivity.
  - intros p -> ->. reflexivity.
  - intros r H. destruct sender_param as [p|]; [|discriminate].
    exists p. split; [reflexivity|].
    destruct (_ || _); [|discriminate].
    destruct (Projection_Base_params.oid p =? _) eqn:Hoid; cbn [negb] in H.
    + apply Nat.eqb_eq in Hoid.
      destruct sender as [|o]; [inversion H; auto|].
      destruct (_ || _ || _) eqn:Hvalid; cbn [negb] in H.
      * inversion H. right. eauto.
      * inversion H. auto.
    + inversion H. auto.
Qed.

Lemma Projection_validate_params_sender_witness :
  Projection_Base_params.validate_params
    (Projection_Base_params.Given Examples.a_state) (Some Examples.a_string)
    Examples.output_state_class = Raise TypeError
  /\ exists p,
       Some Examples.output_state_class = Some p
       /\ (Projection_Base_params.Given Examples.a_process
           = Projection_Base_params.Given p
           \/ (Projection_Base_params.Given Examples.a_process
               = Projection_Base_params.Given Examples.a_process
               /\ Projection_Base_params.oid p
                  = Projection_Base_params.oid Examples.output_state_class
               /\ exists o,
                    Projection_Base_params.Given Examples.a_process
                    = Projection_Base_params.Given o
                    /\ Projection_Base_params.is_Mechanism_or_State o
                       || Projection_Base_params.is_Process o
                       || Projection_Base_params.is_Mechanism_or_State_class o
                       = true)).
Proof.
  split.
  - apply (proj1 (proj2 (Projection_validate_params_sender
                           (Projection_Base_params.Given Examples.a_state)
                           (Some Examples.a_string)
                           Examples.output_state_class))
             Examples.a_string); reflexivity.
  - apply (proj2 (proj2 (Projection_validate_params_sender
                           (Projection_Base_params.Given Examples.a_process)
                           (Some Examples.output_state_class)
                           Examples.output_state_class))
             (Projection_Base_params.Given Examples.a_process)).
    reflexivity.
Defined.

(** *** The loop over the default senders in __init__.py *)

(** X23. The loop over the default senders of the projection classes ends
    without InitError exactly when each entry is a subclass of Mechanism or
    MechanismState, an instance of one, or a name registered in
    MechanismStateRegistry.  It then leaves as many entries as there were
    and none is a name any more; and if every class registered in
    MechanismStateRegistry is a subclass of MechanismState, every entry left
    is a subclass or an instance of Mechanism or MechanismState. *)
Theorem Init_resolve_all_success :
  forall (MechanismRegistry MechanismStateRegistry : gmap string Init.pyclass)
         (entries : list Init.sender_default),
    ((Init.resolve_all MechanismRegistry MechanismStateRegistry entries).2
     = false
     <-> Forall (fun e => match e with
                          | Init.AClass c =>
                              Init.is_Mechanism_or_State_subclass c = true
                          | Init.AString name =>
                              is_Some (MechanismStateRegistry !! name)
                          | Init.AnObject b => b = true
                          end) entries)
    /\ ((Init.resolve_all MechanismRegistry MechanismStateRegistry entries).2
        = false ->
        length (Init.resolve_all MechanismRegistry MechanismStateRegistry
                  entries).1 = length entries
        /\ Forall (fun e => forall name, e <> Init.AString name)
             (Init.resolve_all MechanismRegistry MechanismStateRegistry
                entries).1
        /\ ((forall name c,
                MechanismStateRegistry !! name = Some c ->
                Init.is_Mechanism_or_State_subclass c = true) ->
            Forall (fun e => match e with
                             | Init.AClass c =>
                                 Init.is_Mechanism_or_State_subclass c = true
                             | Init.AString _ => False
                             | Init.AnObject b => b = true
                             end)
              (Init.resolve_all MechanismRegistry MechanismStateRegistry
                 entries).1)).
Proof.
  intros MR MSR entries. split.
  - induction entries as [|e entries IH]; cbn [Init.resolve_all].
    + split; [constructor|reflexivity].
    + destruct e as [c|name|b]; cbn [Init.resolve].
      * destruct (Init.is_Mechanism_or_State_subclass c) eqn:E; cbn.
        -- rewrite IH. split; [by constructor|by inversion 1].
        -- split; [discriminate|]. inversion 1; congruence.
      * destruct (MSR !! name) as [c|] eqn:E; cbn.
        -- rewrite IH. split; [intros; constructor; [rewrite E|]; eauto|].
           by inversion 1.
        -- split; [discriminate|]. inversion 1 as [|? ? Hsome]; subst.
           rewrite E in Hsome. by destruct Hsome.
      * destruct b; cbn.
        -- rewrite IH. split; [by constructor|by inversion 1].
        -- split; [discriminate|]. inversion 1; congruence.
  - induction entries as [|e entries IH]; cbn [Init.resolve_all].
    + intros _. cbn. split; [reflexivity|]. split; [constructor|].
      intros _. constructor.
    + destruct e as [c|name|b]; cbn [Init.resolve].
      * destruct (Init.is_Mechanism_or_State_subclass c) eqn:E; cbn;
          [|discriminate].
        intros H. destruct (IH H) as (Hlen & Hnames & Hvalid).
        split; [by rewrite Hlen|]. split; [constructor; [discriminate|auto]|].
        intros Hreg. constructor; auto.
      * destruct (MSR !! name) as [c|] eqn:E; cbn; [|discriminate].
        intros H. destruct (IH H) as (Hlen & Hnames & Hvalid).
        split; [by rewrite Hlen|]. split; [constructor; [discriminate|auto]|].
        intros Hreg. constructor; eauto.
      * destruct b; cbn; [|discriminate].
        intros H. destruct (IH H) as (Hlen & Hnames & Hvalid).
        split; [by rewrite Hlen|]. split; [constructor; [discriminate|auto]|].
        intros Hreg. constructor; auto.
Qed.

Lemma Init_resolve_all_success_witness :
  Forall (fun e => match e with
                   | Init.AClass c =>
                       Init.is_Mechanism_or_State_subclass c = true
                   | Init.AString _ => False
                   | Init.AnObject b => b = true
                   end)
    (Init.resolve_all Examples.MechanismRegistry
       Examples.MechanismStateRegistry
       [Init.AString "MechanismOutputState"; Init.AClass Examples.DDM]).1.
Proof.
  apply (proj2 (Init_resolve_all_success Examples.MechanismRegistry
                  Examples.MechanismStateRegistry
                  [Init.AString "MechanismOutputState";
                   Init.AClass Examples.DDM])).
  - vm_compute. reflexivity.
  - intros name c H. unfold Examples.MechanismStateRegistry in H.
    apply lookup_insert_Some in H as [[_ <-]|[_ H]]; [reflexivity|].
    rewrite lookup_empty in H. discriminate.
Defined.

Lemma resolve_all_app_stop
    (MR MSR : gmap string Init.pyclass) (pre : list Init.sender_default)
    (e e' : Init.sender_default) (rest : list Init.sender_default) :
  (Init.resolve_all MR MSR pre).2 = false ->
  Init.resolve MR MSR e = Init.InitError e' ->
  Init.resolve_all MR MSR (pre ++ e :: rest)
  = ((Init.resolve_all MR MSR pre).1 ++ e' :: rest, true).
Proof.
  intros Hpre He. induction pre as [|x pre IH]; cbn [app Init.resolve_all].
  - rewrite He. reflexivity.
  - cbn [Init.resolve_all] in Hpre.
    destruct (Init.resolve MR MSR x) as [x'|x']; cbn in Hpre |- *;
      [|discriminate].
    rewrite (IH Hpre). reflexivity.
Qed.

(** X24. The loop stops at the first entry that it refuses: the entries
    before it are resolved, those after it are left as they were, and the
    loop ends with InitError.  When the refused entry is a name that only
    MechanismRegistry knows, the entry has nevertheless been overwritten
    with the class of that mechanism; a name that neither registry knows
    is left in place. *)
Theorem Init_resolve_all_stops :
  forall (MechanismRegistry MechanismStateRegistry : gmap string Init.pyclass)
         (pre rest : list Init.sender_default) (name : string),
    (Init.resolve_all MechanismRegistry MechanismStateRegistry pre).2
    = false ->
    MechanismStateRegistry !! name = None ->
    Init.resolve_all MechanismRegistry MechanismStateRegistry
      (pre ++ Init.AString name :: rest)
    = ((Init.resolve_all MechanismRegistry MechanismStateRegistry pre).1
         ++ match MechanismRegistry !! name with
            | Some c => Init.AClass c
            | None => Init.AString name
            end :: rest,
       true).
Proof.
  intros MR MSR pre rest name Hpre Hname.
  apply resolve_all_app_stop; [exact Hpre|].
  cbn [Init.resolve]. rewrite Hname. reflexivity.
Qed.

Lemma Init_resolve_all_stops_witness :
  Init.resolve_all Examples.MechanismRegistry Examples.MechanismStateRegistry
    ([Init.AString "MechanismOutputState"]
       ++ Init.AString "DDM" :: [Init.AString "MechanismInputState"])
  = ((Init.resolve_all Examples.MechanismRegistry
        Examples.MechanismStateRegistry
        [Init.AString "MechanismOutputState"]).1
       ++ match Examples.MechanismRegistry !! "DDM"%string with
          | Some c => Init.AClass c
          | None => Init.AString "DDM"
          end :: [Init.AString "MechanismInputState"],
     true).
Proof.
  apply (Init_resolve_all_stops Examples.MechanismRegistry
           Examples.MechanismStateRegistry
           [Init.AString "MechanismOutputState"]
           [Init.AString "MechanismInputState"] "DDM").
  - vm_compute. reflexivity.
  - vm_compute. reflexivity.
Defined.

(** *** Mapping: the length of the receiver *)

Lemma LinearMatrix_init_identity_matrix
    (sender : list scalar) (declared : option (list scalar)) (unrecognized : bool)
    (f : LinearMatrix.t) :
  LinearMatrix.init (Arr1 sender) declared LinearMatrix.IdentityMatrix
    unrecognized = Ok f ->
  LinearMatrix.matrix f = LinearMatrix.NdArray (Np.identity (length sender)).
Proof.
  rewrite LinearMatrix_init_steps.
  unfold LinearMatrix.validate_params, LinearMatrix.validate_matrix,
    LinearMatrix.implement_matrix.
  set (receiver := match declared with Some r => r | None => sender end).
  destruct (negb (length receiver =? length sender)); cbn [bind];
    destruct unrecognized; try discriminate; cbn [bind fst snd];
    destruct (negb (length sender =? length receiver)); try discriminate;
    cbn [bind]; intros H; injection H as <-; reflexivity.
Qed.

(** X25. A Mapping whose class has no execute method of its own is
    constructed only onto a receiver whose value has a fitting length: with
    the identity matrix, the length of the sender's value, or 1; with any
    other matrix (a filler number or an np.matrix), 1 only, because the
    product with an np.matrix is a matrix of one row, whose len is 1. *)
Theorem Mapping_init_receiver_length :
  forall (self self' : Projection.t) (w w' : Projection.world),
    Mapping.init self w = (Ok self', w') ->
    Projection.own_execute self = None ->
    exists (r : nat) (rcv : MechanismState.t) (v0 : list scalar),
      Projection.receiver self' = Projection.StateRef r
      /\ Projection.states w' !! r = Some rcv
      /\ Projection.variable self' = Arr1 v0
      /\ (Projection.kwMatrix (Projection.kwExecuteMethodParams self)
          = LinearMatrix.IdentityMatrix ->
          Mapping.len_or_1 (MechanismState.value rcv) = length v0
          \/ Mapping.len_or_1 (MechanismState.value rcv) = 1%nat)
      /\ (Projection.kwMatrix (Projection.kwExecuteMethodParams self)
          <> LinearMatrix.IdentityMatrix ->
          Mapping.len_or_1 (MechanismState.value rcv) = 1%nat).
Proof.
  intros self self' w w' H Hown.
  apply Mapping_init_steps in H as (self1 & self2 & w1 & Hs & Hr & He).
  apply Mapping_instantiate_sender_ok in Hs.
  apply Projection_Base_instantiate_sender_state in Hs
    as (s & st0 & -> & _ & _ & _ & _ & _).
  apply instantiate_receiver_state_ok in Hr
    as (r & rst0 & -> & _ & _ & _ & _ & _).
  apply Mapping_instantiate_execute_method_ok in He
    as (_ & (f0 & m & v & Hf0 & -> & Hm) & (r' & rcv & Hrcv & Hrcv' & Hlen)).
  cbn in Hrcv. inversion Hrcv; subst r'. clear Hrcv.
  cbn in Hf0, Hm, Hlen.
  destruct m as [|f|output]; [contradiction| |congruence].
  destruct Hm as (_ & out & Hout & Hv).
  destruct (LinearMatrix_init_variable _ _ _ _ _ Hf0) as [v0 Hv0].
  rewrite Hv0 in Hf0, Hout.
  exists r, rcv, v0. cbn.
  split; [reflexivity|]. split; [exact Hrcv'|]. split; [exact Hv0|].
  unfold LinearMatrix.execute, LinearMatrix.dot_matrix in Hout.
  cbn [LinearMatrix.validate_variable bind] in Hout.
  split.
  - intros Hspec. rewrite Hspec in Hf0.
    apply LinearMatrix_init_identity_matrix in Hf0. rewrite Hf0 in Hout.
    cbn [LinearMatrix.rows_of] in Hout.
    destruct (dot_identity_length v0) as (r0 & Hdot & Hr0).
    rewrite Hdot in Hout.
    cbn [bind] in Hout. inversion Hout; subst out.
    rewrite Hlen. destruct Hv as [->|[->| ->]]; cbn; auto.
  - intros Hspec.
    apply LinearMatrix_init_inv in Hf0 as (_ & _ & _ & _ & _ & _ & Hkind).
    rewrite Hkind in Hout.
    rewrite Hlen. 
    destruct (Projection.kwMatrix (Projection.kwExecuteMethodParams self));
      try contradiction;
      cbn [LinearMatrix.rows_of] in Hout;
      destruct (Np.dot v0 _) as [row|]; try discriminate;
      cbn [bind] in Hout; inversion Hout; subst out;
      destruct Hv as [->|[->| ->]]; reflexivity.
Qed.

Lemma Mapping_init_receiver_length_witness :
  (exists (p : Projection.t) (w' : Projection.world),
      Mapping.init (Scenario.mapping 2) Scenario.w = (Ok p, w')
      /\ exists (r : nat) (rcv : MechanismState.t) (v0 : list scalar),
           Projection.receiver p = Projection.StateRef r
           /\ Projection.states w' !! r = Some rcv
           /\ Projection.variable p = Arr1 v0
           /\ (Mapping.len_or_1 (MechanismState.value rcv) = length v0
               \/ Mapping.len_or_1 (MechanismState.value rcv) = 1%nat))
  /\ (exists (p : Projection.t) (w' : Projection.world),
         Mapping.init Examples.mapping_filler Examples.w_row = (Ok p, w')
         /\ exists (r : nat) (rcv : MechanismState.t),
              Projection.receiver p = Projection.StateRef r
              /\ Projection.states w' !! r = Some rcv
              /\ Mapping.len_or_1 (MechanismState.value rcv) = 1%nat).
Proof.
  split.
  - destruct (Mapping.init (Scenario.mapping 2) Scenario.w) as [[p|e] w']
      eqn:Hinit; [|vm_compute in Hinit; discriminate].
    exists p, w'. split; [reflexivity|].
    destruct (Mapping_init_receiver_length _ _ _ _ Hinit eq_refl)
      as (r & rcv & v0 & Hr & Hrcv & Hv0 & Hid & _).
    exists r, rcv, v0. repeat split; auto.
  - destruct (Mapping.init Examples.mapping_filler Examples.w_row)
      as [[p|e] w'] eqn:Hinit; [|vm_compute in Hinit; discriminate].
    exists p, w'. split; [reflexivity|].
    destruct (Mapping_init_receiver_length _ _ _ _ Hinit eq_refl)
      as (r & rcv & v0 & Hr & Hrcv & _ & _ & Hother).
    exists r, rcv. split; [exact Hr|]. split; [exact Hrcv|].
    apply Hother. discriminate.
Defined.
